(** * oemof.core.energy_system: a shallow embedding

    The module [oemof/core/energy_system.py] defines three classes:
    [EnergySystem] (the container and process-wide entity registry),
    [Region] and [Simulation].  Python values are embedded as the inductive
    type [pyval]; instances of [EnergySystem] live in a store indexed by
    object identity, because the class attribute [Entity.registry] and the
    return value of [optimize] refer to them by identity.  Code that can
    raise returns a [result]; code that touches the registry, the file
    system or the logger runs in the state monad [M], which keeps the state
    reached when an exception is raised. *)

From Stdlib Require Import ZArith Ascii String.
From stdpp Require Import gmap strings list fin_maps.

Local Open Scope string_scope.

(** ** Python values *)

#[warnings="-register-all"]
Inductive pyval : Type :=
| PyNone
| PyBool (b : bool)
| PyInt (z : Z)
| PyFloat (m e : Z)                      (* the float m * 2^e; never computed with *)
| PyStr (s : string)
| PyList (l : list pyval)
| PyTuple (l : list pyval)
| PyDict (d : gmap string pyval)
| PyObj (cls : string) (attrs : gmap string pyval)   (* an instance and its __dict__ *)
| PyClass (qualname : string)            (* a class object *)
| PyFunc (qualname : string).            (* a module-level function *)

(** Keyword arguments ([**kwargs]) and instance dictionaries ([__dict__])
    are string-keyed maps. *)
Abbreviation pydict := (gmap string pyval).

Inductive exn : Type :=
| TypeError (msg : string)
| ValueError (msg : string)
| AttributeError (name : string)
| ReferenceError
| FileNotFoundError (path : string)
| FileExistsError (path : string)
| NotADirectoryError (path : string)
| IsADirectoryError (path : string)
| PermissionError (path : string)
| EOFError
| PicklingError
| UnpicklingError
| SolverError (msg : string)
| NotModelled (what : string).
(** [NotModelled] is no exception of the program: it marks an input on which
    this embedding does not say what the program does (code of a class that
    is not in these sources would run, or a string is outside ASCII). *)

Inductive result (A : Type) : Type :=
| Ok (a : A)
| Raise (e : exn).
Arguments Ok {A} a.
Arguments Raise {A} e.

Definition rbind {A B} (r : result A) (k : A → result B) : result B :=
  match r with
  | Ok a => k a
  | Raise e => Raise e
  end.

Declare Scope py_scope.
Delimit Scope py_scope with py.
Notation "'let?' x := r 'in' k" := (rbind r (fun x => k))
  (at level 10, x name, r at level 100, k at level 200) : py_scope.
Local Open Scope py_scope.

(** [kwargs.get(key, default)]; [kwargs.get(key)] is the same with
    [None] as the default. *)
Definition kwargs_get (kwargs : pydict) (key : string) (dflt : pyval) : pyval :=
  default dflt (kwargs !! key).

(** [v is None] *)
Definition is_None (v : pyval) : bool :=
  match v with
  | PyNone => true
  | _ => false
  end.

(** [v.name] for the data attributes read in this module ([uid], [solver],
    [debug], [verbose], [duals], [solve_kwargs], [timesteps]): an instance
    looks the name up in its dictionary, the built-in values have none of
    them. *)
Definition getattr (v : pyval) (name : string) : result pyval :=
  match v with
  | PyObj _ attrs =>
      match attrs !! name with
      | Some x => Ok x
      | None => Raise (AttributeError name)
      end
  | _ => Raise (AttributeError name)
  end.

(** [len(v)] of the built-in sized values. *)
Definition py_len (v : pyval) : option nat :=
  match v with
  | PyStr s => Some (String.length s)
  | PyList l => Some (length l)
  | PyTuple l => Some (length l)
  | PyDict d => Some (size d)
  | _ => None
  end.

(** [a + b] where [a] is a tuple: only a tuple can be concatenated to it. *)
Definition tuple_add (a b : pyval) : result pyval :=
  match a, b with
  | PyTuple x, PyTuple y => Ok (PyTuple (x ++ y))
  | _, _ => Raise (TypeError "can only concatenate tuple to tuple")
  end.

(** ** Strings

    [str] is embedded as [string], one character for each code point, which
    covers the strings of ASCII characters ([is_ascii]): on these, indexing
    and slicing count characters and [upper] maps a letter to one letter.
    Functions that slice or change case are applied to ASCII strings
    only. *)

Definition is_ascii_char (c : ascii) : bool := (nat_of_ascii c <? 128)%nat.

Fixpoint is_ascii (s : string) : bool :=
  match s with
  | EmptyString => true
  | String c s' => is_ascii_char c && is_ascii s'
  end.

Definition slash : ascii := "/"%char.

(** [c.upper()] for one ASCII character. *)
Definition ascii_upper (c : ascii) : ascii :=
  let n := nat_of_ascii c in
  if (97 <=? n)%nat && (n <=? 122)%nat then ascii_of_nat (n - 32) else c.

(** [s.upper()] for an ASCII string. *)
Fixpoint str_upper (s : string) : string :=
  match s with
  | EmptyString => EmptyString
  | String c s' => String (ascii_upper c) (str_upper s')
  end.

(** [s.replace(old, new)] for one-character [old] and [new]. *)
Fixpoint str_replace (old new : ascii) (s : string) : string :=
  match s with
  | EmptyString => EmptyString
  | String c s' =>
      String (if Ascii.eqb c old then new else c) (str_replace old new s')
  end.

(** [s.split(sep, maxsplit)] for a one-character [sep] and [maxsplit >= 0]:
    at most [maxsplit] cuts, from the left; empty pieces are kept. *)
Fixpoint str_split (sep : ascii) (maxsplit : nat) (s : string) : list string :=
  match s with
  | EmptyString => [EmptyString]
  | String c s' =>
      match maxsplit with
      | O => [s]
      | S m =>
          if Ascii.eqb c sep then EmptyString :: str_split sep m s'
          else
            match str_split sep maxsplit s' with
            | [] => [String c EmptyString]
            | p :: ps => String c p :: ps
            end
      end
  end.

(** [s[lo:hi]] for [0 <= lo <= hi] and an ASCII string. *)
Definition str_slice (lo hi : nat) (s : string) : string :=
  substring lo (hi - lo) s.

(** [s.startswith('/')], [s.endswith('/')] and [s.rstrip('/')]. *)
Definition startswith_slash (s : string) : bool :=
  match s with
  | String c _ => Ascii.eqb c slash
  | EmptyString => false
  end.

Fixpoint endswith_slash (s : string) : bool :=
  match s with
  | EmptyString => false
  | String c EmptyString => Ascii.eqb c slash
  | String _ s' => endswith_slash s'
  end.

Fixpoint rstrip_slash (s : string) : string :=
  match s with
  | EmptyString => EmptyString
  | String c s' =>
      match rstrip_slash s' with
      | EmptyString => if Ascii.eqb c slash then EmptyString else String c EmptyString
      | r => String c r
      end
  end.

(** ** os.path (posixpath) *)

(** One step of [os.path.join]: an absolute component restarts the path,
    otherwise it is appended after exactly one separator. *)
Definition join2 (path b : string) : string :=
  if startswith_slash b then b
  else if String.eqb path "" || endswith_slash path then path ++ b
  else path ++ "/" ++ b.

(** [os.path.join(a, *p)] *)
Definition os_path_join (a : string) (p : list string) : string :=
  fold_left join2 p a.

Fixpoint has_slash (s : string) : bool :=
  match s with
  | EmptyString => false
  | String c s' => Ascii.eqb c slash || has_slash s'
  end.

(** [p[:p.rfind('/') + 1]] *)
Fixpoint upto_last_slash (p : string) : string :=
  match p with
  | EmptyString => EmptyString
  | String c p' => if has_slash p then String c (upto_last_slash p') else EmptyString
  end.

(** [os.path.dirname(p)]: the head is stripped of trailing slashes unless
    it consists of slashes only. *)
Definition os_path_dirname (p : string) : string :=
  let head := upto_last_slash p in
  match rstrip_slash head with
  | EmptyString => head
  | h => h
  end.

(** [os.path.expanduser("~")] with [$HOME] set to [home_env]. *)
Definition expanduser_tilde (home_env : string) : string :=
  match rstrip_slash home_env with
  | EmptyString => "/"
  | userhome => userhome
  end.

(** ** Iteration *)

Fixpoint chars (s : string) : list pyval :=
  match s with
  | EmptyString => []
  | String c s' => PyStr (String c EmptyString) :: chars s'
  end.

(** The items [for x in v] visits: those of a list or tuple, the characters
    of a string; [None], numbers, functions and classes are not iterable.
    A dictionary yields its keys in the order of insertion, which the map
    does not hold, and what an instance yields is up to its class. *)
Definition py_iter (v : pyval) : result (list pyval) :=
  match v with
  | PyList l | PyTuple l => Ok l
  | PyStr s => Ok (chars s)
  | PyDict _ => Raise (NotModelled "iteration over a dictionary")
  | PyObj _ _ => Raise (NotModelled "iteration over an instance")
  | _ => Raise (TypeError "object is not iterable")
  end.

(** ** class Simulation *)

Module Simulation.

Definition cls : string := "Simulation".

(** [Simulation.__init__(self, **kwargs)]: every attribute is taken from the
    keyword arguments or its default; the constructor then raises when
    [timesteps] is [None]. *)
Definition __init__ (kwargs : pydict) : result pyval :=
  let self : pydict :=
    <["solve_kwargs" := kwargs_get kwargs "solve_kwargs" (PyDict ∅)]>
    (<["fast_build" := kwargs_get kwargs "fast_build" (PyBool false)]>
    (<["relaxed" := kwargs_get kwargs "relaxed" (PyBool false)]>
    (<["timesteps" := kwargs_get kwargs "timesteps" PyNone]>
    (<["duals" := kwargs_get kwargs "duals" (PyBool false)]>
    (<["objective_options" := kwargs_get kwargs "objective_options" (PyDict ∅)]>
    (<["verbose" := kwargs_get kwargs "verbose" (PyBool false)]>
    (<["debug" := kwargs_get kwargs "debug" (PyBool false)]>
    (<["solver" := kwargs_get kwargs "solver" (PyStr "glpk")]> ∅)))))))) in
  let? timesteps := getattr (PyObj cls self) "timesteps" in
  if is_None timesteps
  then Raise (ValueError "No timesteps defined!")
  else Ok (PyObj cls self).

End Simulation.

(** ** class Region *)

Module Region.

(** The attributes [entities], [name], [geom] and [_code] of an instance. *)
Record t : Type := Build {
  entities : list pyval;
  name : pyval;
  geom : pyval;
  _code : pyval
}.

Definition set_code (c : pyval) (r : t) : t :=
  {| entities := entities r; name := name r; geom := geom r; _code := c |}.

(** [Region.add_entities(self, entities)].  The items of [entities] are
    appended to [self.entities]; the loop then reads [entity.regions] of
    each and appends the region to it unless it is there.  That back
    reference lives in the entity object, which this embedding holds by
    value, so of the loop the reads and the membership tests (which can
    raise) are kept: a list takes the region, a string refuses the test,
    values without a length are not containers. *)
Fixpoint check_regions (es : list pyval) : result unit :=
  match es with
  | [] => Ok tt
  | entity :: rest =>
      let? regions := getattr entity "regions" in
      match regions with
      | PyList _ => check_regions rest
      | PyStr _ => Raise (TypeError "'in <string>' requires string as left operand")
      | PyTuple _ | PyDict _ | PyObj _ _ =>
          Raise (NotModelled "membership of the region in entity.regions")
      | _ => Raise (TypeError "argument is not iterable")
      end
  end.

Definition add_entities (self : t) (es : pyval) : result t :=
  let? items := py_iter es in
  let self' := {| entities := entities self ++ items; name := name self;
                  geom := geom self; _code := _code self |} in
  let? _ := check_regions items in
  Ok self'.

(** [Region.__init__(self, **kwargs)] *)
Definition __init__ (kwargs : pydict) : result t :=
  let self := {| entities := []; name := PyNone; geom := PyNone; _code := PyNone |} in
  let? self := add_entities self (kwargs_get kwargs "entities" (PyList [])) in
  Ok {| entities := entities self;
        name := kwargs_get kwargs "name" PyNone;
        geom := kwargs_get kwargs "geom" PyNone;
        _code := kwargs_get kwargs "code" PyNone |}.

(** The loop body of the property: [self._code += part[:1].upper() + part[1:3]]. *)
Definition code_step (acc part : string) : string :=
  acc ++ (str_upper (str_slice 0 1 part) ++ str_slice 1 3 part).

(** The property [Region.code]: returns the value read together with the
    instance after the read (the first read stores the derived code).  A
    name that is a string has the method [replace]; [None], numbers, lists,
    tuples and dictionaries have no attribute of that name; what the
    [replace] of an instance, class or function does is outside this
    module. *)
Definition code (self : t) : result pyval * t :=
  if is_None (_code self) then
    match name self with
    | PyStr nm =>
        if is_ascii nm then
          let name_parts := str_split " " 1 (str_replace "_" " " nm) in
          let c := fold_left code_step name_parts "" in
          (Ok (PyStr c), set_code (PyStr c) self)
        else (Raise (NotModelled "a name outside ASCII"), self)
    | PyObj _ _ | PyClass _ | PyFunc _ =>
        (Raise (NotModelled "name.replace of an instance, class or function"), self)
    | _ => (Raise (AttributeError "replace"), self)
    end
  else (Ok (_code self), self).

End Region.

(** ** The environment: pickle, the file system, the logger *)

(** [pickle.dumps] and [pickle.loads] on a type of byte strings.  Pickling
    can fail; what was pickled loads back as an equal value. *)
Class Pickle (blob : Type) : Type := {
  pickle_dumps : pyval → result blob;
  pickle_loads : blob → result pyval;
  pickle_loads_dumps : ∀ v b, pickle_dumps v = Ok b → pickle_loads b = Ok v
}.

(** Directories, regular files and the paths on which the process lacks
    permission.  A file opened for writing and not yet written holds
    [None]. *)
Record filesystem (blob : Type) : Type := FileSystem {
  dirs : gset string;
  files : gmap string (option blob);
  denied : gset string
}.
Arguments FileSystem {blob}.
Arguments dirs {blob}.
Arguments files {blob}.
Arguments denied {blob}.

(** The state of the process: the [EnergySystem] instances by identity (each
    is its [__dict__]), the class attribute [Entity.registry], the entities
    constructed so far, the file system, [$HOME] and the log records. *)
Record world (blob : Type) : Type := World {
  containers : list pydict;
  registry : option nat;
  created : list pyval;
  fs : filesystem blob;
  home_env : string;
  log : list (string * string)
}.
Arguments World {blob}.
Arguments containers {blob}.
Arguments registry {blob}.
Arguments created {blob}.
Arguments fs {blob}.
Arguments home_env {blob}.
Arguments log {blob}.

Definition set_containers {blob} (c : list pydict) (w : world blob) : world blob :=
  World c (registry w) (created w) (fs w) (home_env w) (log w).
Definition set_registry {blob} (r : option nat) (w : world blob) : world blob :=
  World (containers w) r (created w) (fs w) (home_env w) (log w).
Definition set_created {blob} (l : list pyval) (w : world blob) : world blob :=
  World (containers w) (registry w) l (fs w) (home_env w) (log w).
Definition set_fs {blob} (f : filesystem blob) (w : world blob) : world blob :=
  World (containers w) (registry w) (created w) f (home_env w) (log w).
Definition set_log {blob} (l : list (string * string)) (w : world blob) : world blob :=
  World (containers w) (registry w) (created w) (fs w) (home_env w) l.

(** Computations that read and write the world and can raise; the world
    reached when the exception is raised is kept. *)
Definition M (blob A : Type) : Type := world blob → world blob * result A.

Definition ret {blob A} (a : A) : M blob A := fun w => (w, Ok a).
Definition raise {blob A} (e : exn) : M blob A := fun w => (w, Raise e).
Definition lift {blob A} (r : result A) : M blob A := fun w => (w, r).
Definition bind {blob A B} (c : M blob A) (k : A → M blob B) : M blob B :=
  fun w =>
    match c w with
    | (w', Ok a) => k a w'
    | (w', Raise e) => (w', Raise e)
    end.

Notation "'let!' x := c 'in' k" := (bind c (fun x => k))
  (at level 10, x name, c at level 100, k at level 200) : py_scope.
Notation "c ;;; k" := (bind c (fun _ => k))
  (at level 100, k at level 200, right associativity) : py_scope.

(** [for x in l: body(x)] *)
Fixpoint for_each {blob A} (l : list A) (body : A → M blob unit) : M blob unit :=
  match l with
  | [] => ret tt
  | x :: rest => body x ;;; for_each rest body
  end.

Section Environment.
Context {blob : Type}.

(** [logging.<level>(msg)] *)
Definition logging (level msg : string) : M blob unit :=
  fun w => (set_log (log w ++ [(level, msg)]) w, Ok tt).

(** [os.path.isdir(p)] *)
Definition os_path_isdir (p : string) : M blob bool :=
  fun w => (w, Ok (bool_decide (p ∈ dirs (fs w)))).

(** [os.mkdir(p)] *)
Definition mkdir_fs (p : string) (f : filesystem blob) : result (filesystem blob) :=
  if bool_decide (p ∈ dirs f) || bool_decide (p ∈ dom (files f))
  then Raise (FileExistsError p)
  else if bool_decide (os_path_dirname p ∈ dom (files f))
  then Raise (NotADirectoryError p)
  else if negb (bool_decide (os_path_dirname p ∈ dirs f))
  then Raise (FileNotFoundError p)
  else if bool_decide (os_path_dirname p ∈ denied f)
  then Raise (PermissionError p)
  else Ok (FileSystem ({[p]} ∪ dirs f) (files f) (denied f)).

Definition os_mkdir (p : string) : M blob unit :=
  fun w =>
    match mkdir_fs p (fs w) with
    | Ok f => (set_fs f w, Ok tt)
    | Raise e => (w, Raise e)
    end.

(** [open(p, 'wb')]: the file is created or truncated; the handle is the
    path.  A path under a regular file is refused with
    [NotADirectoryError], one under no directory with
    [FileNotFoundError]. *)
Definition open_wb_fs (p : string) (f : filesystem blob) : result (filesystem blob) :=
  if bool_decide (p ∈ dirs f)
  then Raise (IsADirectoryError p)
  else if bool_decide (os_path_dirname p ∈ dom (files f))
  then Raise (NotADirectoryError p)
  else if negb (bool_decide (os_path_dirname p ∈ dirs f))
  then Raise (FileNotFoundError p)
  else if bool_decide (p ∈ denied f) || bool_decide (os_path_dirname p ∈ denied f)
  then Raise (PermissionError p)
  else Ok (FileSystem (dirs f) (<[p := None]> (files f)) (denied f)).

Definition open_wb (p : string) : M blob string :=
  fun w =>
    match open_wb_fs p (fs w) with
    | Ok f => (set_fs f w, Ok p)
    | Raise e => (w, Raise e)
    end.

(** [open(p, 'rb')]: the handle is the content; a missing file under a
    regular file is refused with [NotADirectoryError], any other missing
    file with [FileNotFoundError]. *)
Definition open_rb_fs (p : string) (f : filesystem blob) : result (option blob) :=
  if bool_decide (p ∈ dirs f)
  then Raise (IsADirectoryError p)
  else
    match files f !! p with
    | None =>
        if bool_decide (os_path_dirname p ∈ dom (files f))
        then Raise (NotADirectoryError p)
        else Raise (FileNotFoundError p)
    | Some content =>
        if bool_decide (p ∈ denied f) then Raise (PermissionError p)
        else Ok content
    end.

Definition open_rb (p : string) : M blob (option blob) :=
  fun w => (w, open_rb_fs p (fs w)).

(** [os.path.expanduser("~")] *)
Definition os_path_expanduser_tilde : M blob string :=
  fun w => (w, Ok (expanduser_tilde (home_env w))).

Context `{!Pickle blob}.

(** [pickle.dump(obj, file)] on a handle from [open_wb]. *)
Definition pickle_dump (obj : pyval) (file : string) : M blob unit :=
  let! b := lift (pickle_dumps obj) in
  fun w =>
    let f := fs w in
    (set_fs (FileSystem (dirs f) (<[file := Some b]> (files f)) (denied f)) w, Ok tt).

(** [pickle.load(file)] on a handle from [open_rb]. *)
Definition pickle_load (file : option blob) : M blob pyval :=
  match file with
  | None => raise EOFError
  | Some b => lift (pickle_loads b)
  end.

End Environment.

(** ** Collaborators outside this module *)

(** Modelled from the spec: the optimization model (the compiler,
    [oemof.solph.optimization_model.OptimizationModel]) is not part of these
    sources.  Its contract is [build(energySystem) -> Problem],
    [solve(problem, solverName, debug, verbose, duals, solveKwargs)] and the
    extraction of a results mapping; invalid configurations and solver
    failures are raised.  [OM_new self d] builds the model bound to the
    container [self] whose attributes are [d]; [OM_solve] receives the
    keyword arguments of the call. *)
Class Compiler : Type := {
  OM : Type;
  OM_new : nat → pydict → result OM;
  OM_solve : OM → pydict → result OM;
  OM_results : OM → result pyval
}.

(** [transport.Simple], the class object, and [str(transport.Simple)]. *)
Definition transport_Simple_name : string :=
  "oemof.core.network.entities.components.transports.Simple".
Definition transport_Simple : pyval := PyClass transport_Simple_name.
Definition str_of_class (qualname : string) : string :=
  "<class '" ++ qualname ++ "'>".

(** [a == b] for class objects: classes are equal when they are the same
    class; no other value equals a class. *)
Definition class_eq (a b : pyval) : bool :=
  match a, b with
  | PyClass x, PyClass y => String.eqb x y
  | _, _ => false
  end.

Section Entity.
Context {blob : Type}.

(** Modelled from the spec: the class [Entity] ([oemof.core.network]) and
    its subclasses are not part of these sources.  An entity is an opaque
    typed record of its constructor arguments, and every newly constructed
    entity attaches itself to the entity list of the container currently set
    as the active registry (none when [Entity.registry] is [None]). *)
Definition Entity_new (cls : string) (kwargs : pydict) : M blob pyval :=
  fun w =>
    let e := PyObj cls kwargs in
    let w := set_created (created w ++ [e]) w in
    match registry w with
    | None => (w, Ok e)
    | Some r =>
        match containers w !! r with
        | None => (w, Raise ReferenceError)
        | Some d =>
            match d !! "entities" with
            | None => (w, Raise (AttributeError "entities"))
            | Some (PyList l) =>
                (set_containers
                   (<[r := <["entities" := PyList (l ++ [e])]> d]> (containers w)) w,
                 Ok e)
            | Some _ => (w, Raise (AttributeError "append"))
            end
        end
    end.

(** A call of the class object [c] of the entity hierarchy with keyword
    arguments. *)
Definition call_class (c : pyval) (kwargs : pydict) : M blob pyval :=
  match c with
  | PyClass qualname => Entity_new qualname kwargs
  | _ => raise (TypeError "object is not callable")
  end.

End Entity.

(** ** class EnergySystem *)

Module EnergySystem.
Section Methods.
Context {blob : Type} `{!Pickle blob} `{!Compiler}.

(** Allocation of the instance; [self] is its identity. *)
Definition new_instance : M blob nat :=
  fun w => (set_containers (containers w ++ [∅]) w, Ok (length (containers w))).

(** [self.__dict__] *)
Definition get_dict (self : nat) : M blob pydict :=
  fun w =>
    match containers w !! self with
    | Some d => (w, Ok d)
    | None => (w, Raise ReferenceError)
    end.

(** [self.__dict__ = d] *)
Definition set_dict (self : nat) (d : pydict) : M blob unit :=
  fun w =>
    match containers w !! self with
    | Some _ => (set_containers (<[self := d]> (containers w)) w, Ok tt)
    | None => (w, Raise ReferenceError)
    end.

(** [self.name] and [self.name = v] *)
Definition getattr_self (self : nat) (name : string) : M blob pyval :=
  let! d := get_dict self in
  match d !! name with
  | Some v => ret v
  | None => raise (AttributeError name)
  end.

Definition setattr_self (self : nat) (name : string) (v : pyval) : M blob unit :=
  let! d := get_dict self in
  set_dict self (<[name := v]> d).

(** [EnergySystem.__init__(self, **kwargs)] *)
Definition __init__ (kwargs : pydict) : M blob nat :=
  let! self := new_instance in
  for_each ["regions"; "entities"; "simulation"] (fun attribute =>
    setattr_self self attribute (kwargs_get kwargs attribute (PyList []))) ;;;
  (fun w => (set_registry (Some self) w, Ok tt)) ;;;
  setattr_self self "results" (kwargs_get kwargs "results" PyNone) ;;;
  setattr_self self "time_idx" (kwargs_get kwargs "time_idx" PyNone) ;;;
  ret self.

(** [EnergySystem.connect(self, bus1, bus2, in_max, out_max, eta,
    transport_class)] *)
Definition connect (self : nat)
    (bus1 bus2 in_max out_max eta transport_class : pyval) : M blob pyval :=
  (if negb (class_eq transport_class transport_Simple) then
     logging "ERROR" "" ;;;
     raise (TypeError
       ("Sorry, `EnergySystem.connect` currently only works with" ++
        "a `transport_class` argument of" ++ str_of_class transport_Simple_name))
   else ret tt) ;;;
  for_each [(bus1, bus2); (bus2, bus1)] (fun buses =>
    let bus_a := fst buses in
    let bus_b := snd buses in
    let! uid_a := lift (getattr bus_a "uid") in
    let! prefix := lift (tuple_add (PyTuple [PyStr "transport"]) uid_a) in
    let! uid_b := lift (getattr bus_b "uid") in
    let! uid := lift (tuple_add prefix uid_b) in
    let! _ := call_class transport_class
      (<["eta" := PyList [eta]]>
      (<["in_max" := PyList [in_max]]>
      (<["out_max" := PyList [out_max]]>
      (<["inputs" := PyList [bus_b]]>
      (<["outputs" := PyList [bus_a]]>
      (<["uid" := uid]> ∅)))))) in
    ret tt) ;;;
  ret PyNone.

(** [self.simulation.name] *)
Definition simulation_attr (self : nat) (name : string) : M blob pyval :=
  let! simulation := getattr_self self "simulation" in
  lift (getattr simulation name).

(** [EnergySystem.optimize(self, om=None)]; returns [self]. *)
Definition optimize (self : nat) (om : option OM) : M blob nat :=
  let! om :=
    match om with
    | None => let! d := get_dict self in lift (OM_new self d)
    | Some om => ret om
    end in
  let! solver := simulation_attr self "solver" in
  let! debug := simulation_attr self "debug" in
  let! verbose := simulation_attr self "verbose" in
  let! duals := simulation_attr self "duals" in
  let! solve_kwargs := simulation_attr self "solve_kwargs" in
  let! om := lift (OM_solve om
    (<["solve_kwargs" := solve_kwargs]>
    (<["duals" := duals]>
    (<["verbose" := verbose]>
    (<["debug" := debug]>
    (<["solver" := solver]> ∅)))))) in
  let! results := lift (OM_results om) in
  setattr_self self "results" results ;;;
  ret self.

(** [EnergySystem.dump(self, dpath=None, filename=None, keep_weather=True)] *)
Definition dump (self : nat) (dpath filename : option string)
    (keep_weather : bool) : M blob pyval :=
  let! dpath :=
    match dpath with
    | None =>
        let! home := os_path_expanduser_tilde in
        let bpath := os_path_join home [".oemof"] in
        let! b := os_path_isdir bpath in
        (if negb b then os_mkdir bpath else ret tt) ;;;
        let dpath := os_path_join bpath ["dumps"] in
        let! b := os_path_isdir dpath in
        (if negb b then os_mkdir dpath else ret tt) ;;;
        ret dpath
    | Some dpath => ret dpath
    end in
  let filename := default "es_dump.oemof" filename in
  let! d := get_dict self in
  let! file := open_wb (os_path_join dpath [filename]) in
  pickle_dump (PyDict d) file ;;;
  let msg := "Attributes dumped to: " ++ os_path_join dpath [filename] in
  logging "DEBUG" msg ;;;
  ret (PyStr msg).

(** [EnergySystem.restore(self, dpath=None, filename=None)] *)
Definition restore (self : nat) (dpath filename : option string) : M blob pyval :=
  logging "INFO" "Restoring attributes will overwrite existing attributes." ;;;
  let! dpath :=
    match dpath with
    | None =>
        let! home := os_path_expanduser_tilde in
        ret (os_path_join home [".oemof"; "dumps"])
    | Some dpath => ret dpath
    end in
  let filename := default "es_dump.oemof" filename in
  let! file := open_rb (os_path_join dpath [filename]) in
  let! loaded := pickle_load file in
  match loaded with
  | PyDict d => set_dict self d
  | _ => raise (TypeError "__dict__ must be set to a dictionary")
  end ;;;
  let msg := "Attributes restored from: " ++ os_path_join dpath [filename] in
  logging "DEBUG" msg ;;;
  ret (PyStr msg).

End Methods.
End EnergySystem.

(** ** Concrete environments

    Used to run the definitions on examples. *)

(** A pickle whose byte string for a value is the value itself. *)
Definition value_pickle : Pickle pyval :=
  {| pickle_dumps := fun v => Ok v;
     pickle_loads := fun b => Ok b;
     pickle_loads_dumps := fun v b (H : Ok v = Ok b) => eq_sym H |}.

(** A compiler that never fails: the model is the keyword arguments [solve]
    was called with, and the results mapping shows them. *)
Definition echo_compiler : Compiler :=
  {| OM := pydict;
     OM_new := fun _ _ => Ok ∅;
     OM_solve := fun _ kwargs => Ok kwargs;
     OM_results := fun om => Ok (PyDict om) |}.

(** A process that has constructed nothing yet, with home directory
    [/home/uwe]. *)
Definition world0 : world pyval :=
  {| containers := []; registry := None; created := [];
     fs := {| dirs := {["/"; "/home"; "/home/uwe"]}; files := ∅; denied := ∅ |};
     home_env := "/home/uwe"; log := [] |}.

(** The same process after [EnergySystem()]. *)
Definition world1 : world pyval :=
  fst (EnergySystem.__init__ ∅ world0).

(** Two buses identified by tuples, and the two buses of the test suite,
    [Bus(uid="bgas", type="gas", price=70, balanced=True, excess=False)] and
    [Bus(uid="bel", type="el", excess=True)], identified by strings. *)
Definition bus_north : pyval :=
  PyObj "Bus" (<["type" := PyStr "el"]> {["uid" := PyTuple [PyStr "bel"; PyStr "north"]]}).
Definition bus_south : pyval :=
  PyObj "Bus" (<["type" := PyStr "el"]> {["uid" := PyTuple [PyStr "bel"; PyStr "south"]]}).
Definition bgas : pyval :=
  PyObj "Bus"
    (<["excess" := PyBool false]> (<["balanced" := PyBool true]>
    (<["price" := PyInt 70]> (<["type" := PyStr "gas"]> {["uid" := PyStr "bgas"]})))).
Definition bel : pyval :=
  PyObj "Bus"
    (<["excess" := PyBool true]> (<["type" := PyStr "el"]> {["uid" := PyStr "bel"]})).

(** The float [0.9]. *)
Definition float_0_9 : pyval := PyFloat 8106479329266893 (-53).


(** The configuration of the test suite,
    [Simulation(timesteps=range(3), solver='glpk')] with the range as a
    list, and the process after [EnergySystem(simulation=sim)]. *)
Definition sim_glpk : pyval :=
  match Simulation.__init__
          (<["solver" := PyStr "glpk"]>
             {["timesteps" := PyList [PyInt 0; PyInt 1; PyInt 2]]}) with
  | Ok sim => sim
  | Raise _ => PyNone
  end.

Definition world2 : world pyval :=
  fst (EnergySystem.__init__ {["simulation" := sim_glpk]} world0).

(** The keyword arguments of [solve] for that configuration. *)
Definition glpk_solve_kwargs : pydict :=
  <["solve_kwargs" := PyDict ∅]>
  (<["duals" := PyBool false]>
  (<["verbose" := PyBool false]>
  (<["debug" := PyBool false]>
  (<["solver" := PyStr "glpk"]> ∅)))).

(** A compiler whose solver finds every problem infeasible. *)
Definition infeasible_compiler : Compiler :=
  {| OM := unit;
     OM_new := fun _ _ => Ok tt;
     OM_solve := fun _ _ => Raise (SolverError "infeasible");
     OM_results := fun _ => Ok (PyDict ∅) |}.

(** The process [world1] after [dump()] on its container, then after a
    second container was constructed with results of its own; [world1] with
    a home directory that may not be written; and [world1] after a second
    [EnergySystem()]. *)
Definition world1_dumped : world pyval :=
  fst (@EnergySystem.dump pyval value_pickle 0 None None true world1).

Definition world1_second : world pyval :=
  fst (EnergySystem.__init__ {["results" := PyInt 3]} world1_dumped).

Definition world1_readonly_home : world pyval :=
  set_fs (FileSystem (dirs (fs world1)) (files (fs world1)) {["/home/uwe"]}) world1.

Definition world_two : world pyval :=
  fst (EnergySystem.__init__ ∅ world1).

(** A bus that belongs to no region yet. *)
Definition bus_unassigned : pyval :=
  PyObj "Bus" (<["regions" := PyList []]> {["uid" := PyTuple [PyStr "bel"]]}).

(** ** Definitions used to state the properties *)

(** The dictionary [EnergySystem.__init__] leaves in the new instance. *)
Definition init_dict (kwargs : pydict) : pydict :=
  <["time_idx" := kwargs_get kwargs "time_idx" PyNone]>
  (<["results" := kwargs_get kwargs "results" PyNone]>
  (<["simulation" := kwargs_get kwargs "simulation" (PyList [])]>
  (<["entities" := kwargs_get kwargs "entities" (PyList [])]>
  (<["regions" := kwargs_get kwargs "regions" (PyList [])]> ∅)))).

(** One [EnergySystem] constructed after the other, with the keyword
    arguments of the list; returns the instances in order. *)
Fixpoint construct_all {blob} (kws : list pydict) : M blob (list nat) :=
  match kws with
  | [] => ret []
  | kw :: rest =>
      let! self := EnergySystem.__init__ kw in
      let! others := construct_all rest in
      ret (self :: others)
  end.

(** [v] is an instance of [Simulation]. *)
Definition is_Simulation (v : pyval) : bool :=
  match v with
  | PyObj c _ => String.eqb c Simulation.cls
  | _ => false
  end.

(** The short code of one piece of a name: its first character in upper
    case, then its second and third characters. *)
Definition segment_code (seg : string) : string :=
  str_upper (str_slice 0 1 seg) ++ str_slice 1 3 seg.




(** The derivation as the code has it: the name is cut once, at its first
    space or underscore; the code is the [segment_code] of what stands
    before the cut followed by the [segment_code] of all that stands after
    it (where underscores read as spaces). *)
Definition is_separator (c : ascii) : bool :=
  Ascii.eqb c " " || Ascii.eqb c "_".


Fixpoint cut_at_separator (s : string) : string * option string :=
  match s with
  | EmptyString => (EmptyString, None)
  | String c s' =>
      if is_separator c then (EmptyString, Some s')
      else (String c (fst (cut_at_separator s')), snd (cut_at_separator s'))
  end.



(** The active registry, if there is one, is an instance whose [entities]
    attribute is a list. *)
Definition registry_ready {blob} (w : world blob) : Prop :=
  match registry w with
  | None => True
  | Some r =>
      ∃ d l, containers w !! r = Some d ∧ d !! "entities" = Some (PyList l)
  end.

(** [t] is a [transport.Simple] with the given identifier, from [in_bus] to
    [out_bus], with the given caps and efficiency each as a one-element
    list, and no further attribute. *)
Definition is_transport (t uid in_bus out_bus in_max out_max eta : pyval) : Prop :=
  ∃ attrs,
    t = PyObj transport_Simple_name attrs
    ∧ attrs !! "uid" = Some uid
    ∧ attrs !! "inputs" = Some (PyList [in_bus])
    ∧ attrs !! "outputs" = Some (PyList [out_bus])
    ∧ attrs !! "in_max" = Some (PyList [in_max])
    ∧ attrs !! "out_max" = Some (PyList [out_max])
    ∧ attrs !! "eta" = Some (PyList [eta])
    ∧ dom attrs = {["uid"; "inputs"; "outputs"; "in_max"; "out_max"; "eta"]}.

(** Computations that leave the world as it is. *)
Definition readonly {blob A} (c : M blob A) : Prop := ∀ w, fst (c w) = w.

(** The directories and the file of a snapshot: [dump] and [restore] without
    a directory use [~/.oemof/dumps], without a file name [es_dump.oemof]. *)
Definition default_bpath (home : string) : string :=
  os_path_join (expanduser_tilde home) [".oemof"].
Definition default_dpath (home : string) : string :=
  os_path_join (default_bpath home) ["dumps"].
Definition snapshot_path (home : string) (dpath filename : option string) : string :=
  os_path_join (default (default_dpath home) dpath)
    [default "es_dump.oemof" filename].

(** [if not os.path.isdir(p): os.mkdir(p)] on the file system. *)
Definition ensure_dir_fs {blob} (p : string) (f : filesystem blob) :
    result (filesystem blob) :=
  if bool_decide (p ∈ dirs f) then Ok f else mkdir_fs p f.

(** Two states of the process with the same objects: only the file system
    and the log may differ. *)
Definition same_objects {blob} (w w' : world blob) : Prop :=
  containers w' = containers w ∧ registry w' = registry w
  ∧ created w' = created w ∧ home_env w' = home_env w.

(** [c] relates every state it starts in to the state it ends in, whether
    it returns or raises. *)
Definition preserves {blob A} (R : world blob → world blob → Prop)
    (c : M blob A) : Prop :=
  ∀ w, R w (fst (c w)).

(** The identifier [connect] builds for the transport into [bus_a] from
    [bus_b]: [('transport',) + bus_a.uid + bus_b.uid]. *)
Definition transport_uid (bus_a bus_b : pyval) : result pyval :=
  let? uid_a := getattr bus_a "uid" in
  let? prefix := tuple_add (PyTuple [PyStr "transport"]) uid_a in
  let? uid_b := getattr bus_b "uid" in
  tuple_add prefix uid_b.

(** * Properties *)

Local Open Scope list_scope.

Ltac wsimpl :=
  cbn [containers registry created fs home_env log dirs files denied
       set_containers set_registry set_created set_fs set_log fst snd] in *.

(** Closed decidable facts about the example processes. *)
Ltac by_compute := refine (bool_decide_unpack _ _); vm_compute; exact I.

(** ** The state monad *)

Section MonadFacts.
Context {blob : Type}.
Implicit Types w : world blob.

Lemma bind_eq {A B} (c : M blob A) (k : A → M blob B) w w' a :
  c w = (w', Ok a) → bind c k w = k a w'.
Proof. unfold bind. by intros ->. Qed.

Lemma bind_raise {A B} (c : M blob A) (k : A → M blob B) w w' e :
  c w = (w', Raise e) → bind c k w = (w', Raise e).
Proof. unfold bind. by intros ->. Qed.

Lemma bind_assoc {A B C} (c : M blob A) (k1 : A → M blob B)
    (k2 : B → M blob C) w :
  bind (bind c k1) k2 w = bind c (fun a => bind (k1 a) k2) w.
Proof. unfold bind. destruct (c w) as [w' [a|e]]; reflexivity. Qed.

Lemma bind_ext {A B} (c : M blob A) (k1 k2 : A → M blob B) w :
  (∀ a w', k1 a w' = k2 a w') → bind c k1 w = bind c k2 w.
Proof. intros H. unfold bind. destruct (c w) as [w' [a|e]]; [apply H|done]. Qed.

Lemma bind_ret {A B} (a : A) (k : A → M blob B) w : bind (ret a) k w = k a w.
Proof. reflexivity. Qed.

Lemma bind_lift_ok {A B} (r : result A) (k : A → M blob B) w a :
  r = Ok a → bind (lift r) k w = k a w.
Proof. by intros ->. Qed.

Lemma bind_lift_raise {A B} (r : result A) (k : A → M blob B) w e :
  r = Raise e → bind (lift r) k w = (w, Raise e).
Proof. by intros ->. Qed.

Lemma bind_raise_inv {A B} (c : M blob A) (k : A → M blob B) w w' e :
  bind c k w = (w', Raise e) →
  c w = (w', Raise e) ∨ ∃ a w1, c w = (w1, Ok a) ∧ k a w1 = (w', Raise e).
Proof.
  unfold bind. destruct (c w) as [w1 [a|e1]]; [|left; congruence].
  intros H. right. eauto.
Qed.

Lemma bind_ok_inv {A B} (c : M blob A) (k : A → M blob B) w w' b :
  bind c k w = (w', Ok b) →
  ∃ a w1, c w = (w1, Ok a) ∧ k a w1 = (w', Ok b).
Proof.
  unfold bind. destruct (c w) as [w1 [a|e1]]; [|discriminate]. eauto.
Qed.

Lemma readonly_ret {A} (a : A) : readonly (ret (blob := blob) a).
Proof. by intros w. Qed.

Lemma readonly_lift {A} (r : result A) : readonly (lift (blob := blob) r).
Proof. by intros w. Qed.

Lemma readonly_raise {A} (e : exn) : readonly (raise (blob := blob) (A := A) e).
Proof. by intros w. Qed.

Lemma readonly_bind {A B} (c : M blob A) (k : A → M blob B) :
  readonly c → (∀ a, readonly (k a)) → readonly (bind c k).
Proof.
  intros Hc Hk w. unfold bind. specialize (Hc w).
  destruct (c w) as [w1 [a|e]]; cbn [fst] in *; subst; [apply Hk|done].
Qed.

Lemma readonly_bind_raise {A B} (c : M blob A) (k : A → M blob B) w w' e :
  readonly c →
  (∀ a, k a w = (w', Raise e) → w' = w) →
  bind c k w = (w', Raise e) → w' = w.
Proof.
  intros Hc Hk [H|(a & w1 & H & Hka)]%bind_raise_inv;
    specialize (Hc w); rewrite H in Hc; cbn [fst] in Hc; subst; [done|].
  by eapply Hk.
Qed.

End MonadFacts.

(** ** Simulation *)

Lemma is_None_true v : is_None v = true ↔ v = PyNone.
Proof. destruct v; simpl; split; congruence. Qed.

Lemma is_None_false v : is_None v = false ↔ v ≠ PyNone.
Proof. destruct v; simpl; split; congruence. Qed.

Lemma Simulation_init_unfold kwargs :
  Simulation.__init__ kwargs =
    if is_None (kwargs_get kwargs "timesteps" PyNone)
    then Raise (ValueError "No timesteps defined!")
    else Simulation.__init__ kwargs.
Proof.
  unfold Simulation.__init__ at 1 2. unfold getattr.
  rewrite !lookup_insert_ne by done. rewrite lookup_insert_eq. simpl.
  by destruct (is_None _).
Qed.

(** Every attribute of a constructed [Simulation] is the keyword argument of
    that name, or the default. *)
Lemma Simulation_init_attr kwargs sim name dflt :
  Simulation.__init__ kwargs = Ok sim →
  (name, dflt) ∈ [("solver", PyStr "glpk"); ("debug", PyBool false);
                  ("verbose", PyBool false); ("objective_options", PyDict ∅);
                  ("duals", PyBool false); ("timesteps", PyNone);
                  ("relaxed", PyBool false); ("fast_build", PyBool false);
                  ("solve_kwargs", PyDict ∅)] →
  getattr sim name = Ok (kwargs_get kwargs name dflt).
Proof.
  unfold Simulation.__init__. unfold getattr at 1.
  rewrite !lookup_insert_ne by done. rewrite lookup_insert_eq. simpl.
  destruct (is_None _); [done|]. intros [= <-] Hin.
  repeat (apply elem_of_cons in Hin as [[= -> ->]|Hin];
    [simpl; rewrite ?lookup_insert_ne by done; by rewrite lookup_insert_eq|]).
  by apply elem_of_nil in Hin.
Qed.

(** C1, as the code has it: [Simulation.__init__] raises [ValueError] exactly
    when the [timesteps] keyword argument is absent or [None]; otherwise it
    returns an instance whose [timesteps] attribute is the value supplied,
    which is not [None] (nothing is asked about its length). *)
Theorem Simulation_init_timesteps (kwargs : pydict) :
  (kwargs_get kwargs "timesteps" PyNone = PyNone →
     Simulation.__init__ kwargs = Raise (ValueError "No timesteps defined!"))
  ∧ (kwargs_get kwargs "timesteps" PyNone ≠ PyNone →
     ∃ sim, Simulation.__init__ kwargs = Ok sim)
  ∧ (∀ sim, Simulation.__init__ kwargs = Ok sim →
     ∃ ts, kwargs !! "timesteps" = Some ts ∧ ts ≠ PyNone
           ∧ getattr sim "timesteps" = Ok ts).
Proof.
  split; [|split].
  - intros H. rewrite Simulation_init_unfold. by rewrite H.
  - intros H%is_None_false. unfold Simulation.__init__, getattr.
    rewrite !lookup_insert_ne by done. rewrite lookup_insert_eq. simpl.
    rewrite H. eauto.
  - intros sim Hsim.
    pose proof (Simulation_init_attr kwargs sim "timesteps" PyNone Hsim) as Hget.
    rewrite Hget by set_solver.
    rewrite Simulation_init_unfold in Hsim.
    destruct (is_None _) eqn:Hn; [done|]. apply is_None_false in Hn.
    unfold kwargs_get in *. destruct (kwargs !! "timesteps") as [ts|]; [|done].
    eauto.
Qed.

(** The test suite's [Simulation(timesteps=range(3), solver='glpk')], with the
    range written as a list: it is constructed, and keeps its timesteps. *)
Lemma Simulation_init_timesteps_witness :
  ∃ sim,
    Simulation.__init__
      (<["solver" := PyStr "glpk"]>
         {["timesteps" := PyList [PyInt 0; PyInt 1; PyInt 2]]}) = Ok sim
    ∧ getattr sim "timesteps" = Ok (PyList [PyInt 0; PyInt 1; PyInt 2]).
Proof.
  destruct (Simulation_init_timesteps
    (<["solver" := PyStr "glpk"]>
       {["timesteps" := PyList [PyInt 0; PyInt 1; PyInt 2]]}))
    as (_ & Hok & Hts).
  destruct Hok as [sim Hsim]; [vm_compute; discriminate|].
  exists sim. split; [exact Hsim|].
  destruct (Hts sim Hsim) as (ts & Hk & _ & Hget).
  vm_compute in Hk. injection Hk as <-. exact Hget.
Defined.

(** C1, as stated, fails: [Simulation(timesteps=[])] is constructed, and the
    stored timestep sequence is empty. *)
Lemma Simulation_init_empty_timesteps :
  ∃ sim,
    Simulation.__init__ {["timesteps" := PyList []]} = Ok sim
    ∧ getattr sim "timesteps" = Ok (PyList [])
    ∧ py_len (PyList []) = Some 0.
Proof.
  eexists. split; [reflexivity|]. split; reflexivity.
Qed.

(** ** EnergySystem: construction and the registry *)

Section ConstructionFacts.
Context {blob : Type}.
Implicit Types (w : world blob) (d : pydict).

Lemma list_insert_snoc {A} (l : list A) (x y : A) :
  <[List.length l := y]> (l ++ [x]) = l ++ [y].
Proof. rewrite insert_app_r_alt by lia. by rewrite Nat.sub_diag. Qed.

Lemma get_dict_eq w self d :
  containers w !! self = Some d → EnergySystem.get_dict self w = (w, Ok d).
Proof. intros H. unfold EnergySystem.get_dict. by rewrite H. Qed.

Lemma set_dict_eq w self d d' :
  containers w !! self = Some d →
  EnergySystem.set_dict self d' w =
    (set_containers (<[self := d']> (containers w)) w, Ok tt).
Proof. intros H. unfold EnergySystem.set_dict. by rewrite H. Qed.

Lemma setattr_self_eq w self d name v :
  containers w !! self = Some d →
  EnergySystem.setattr_self self name v w =
    (set_containers (<[self := <[name := v]> d]> (containers w)) w, Ok tt).
Proof.
  intros H. unfold EnergySystem.setattr_self.
  erewrite bind_eq by by apply get_dict_eq. by eapply set_dict_eq.
Qed.

Lemma getattr_self_eq w self d name v :
  containers w !! self = Some d → d !! name = Some v →
  EnergySystem.getattr_self self name w = (w, Ok v).
Proof.
  intros H Hv. unfold EnergySystem.getattr_self.
  erewrite bind_eq by by apply get_dict_eq. by rewrite Hv.
Qed.

Lemma readonly_get_dict self : readonly (EnergySystem.get_dict (blob := blob) self).
Proof. intros w. unfold EnergySystem.get_dict. by destruct (_ !! _). Qed.

Lemma readonly_getattr_self self name :
  readonly (EnergySystem.getattr_self (blob := blob) self name).
Proof.
  apply readonly_bind; [apply readonly_get_dict|]. intros d.
  destruct (d !! name); [apply readonly_ret|apply readonly_raise].
Qed.

Lemma readonly_simulation_attr self name :
  readonly (EnergySystem.simulation_attr (blob := blob) self name).
Proof.
  apply readonly_bind; [apply readonly_getattr_self|]. intros v.
  apply readonly_lift.
Qed.

Lemma set_dict_raise w w' self d e :
  EnergySystem.set_dict self d w = (w', Raise e) → w' = w.
Proof.
  unfold EnergySystem.set_dict. destruct (_ !! _); congruence.
Qed.

Lemma setattr_self_raise w w' self name v e :
  EnergySystem.setattr_self self name v w = (w', Raise e) → w' = w.
Proof.
  unfold EnergySystem.setattr_self.
  apply readonly_bind_raise; [apply readonly_get_dict|].
  intros d. apply set_dict_raise.
Qed.

Lemma init_eq kwargs w :
  EnergySystem.__init__ kwargs w =
    (World (containers w ++ [init_dict kwargs])
           (Some (List.length (containers w)))
           (created w) (fs w) (home_env w) (log w),
     Ok (List.length (containers w))).
Proof.
  unfold EnergySystem.__init__. cbn [for_each].
  erewrite bind_eq by reflexivity.
  do 3 (rewrite !bind_assoc; erewrite bind_eq
    by (apply setattr_self_eq; wsimpl; by apply list_lookup_middle);
    wsimpl; rewrite list_insert_snoc).
  rewrite bind_ret.
  erewrite bind_eq by reflexivity.
  do 2 (erewrite bind_eq
    by (apply setattr_self_eq; wsimpl; by apply list_lookup_middle);
    wsimpl; rewrite list_insert_snoc).
  reflexivity.
Qed.

Lemma construct_all_eq kws w :
  ∃ w',
    construct_all kws w =
      (w', Ok (seq (List.length (containers w)) (List.length kws)))
    ∧ containers w' = containers w ++ (init_dict <$> kws)
    ∧ registry w' =
        match kws with
        | [] => registry w
        | _ => Some (List.length (containers w) + List.length kws - 1)
        end.
Proof.
  revert w. induction kws as [|kw kws IH]; intros w.
  - exists w. simpl. by rewrite app_nil_r.
  - cbn [construct_all]. erewrite bind_eq by apply init_eq.
    edestruct IH as (w' & Hrun & Hc & Hr).
    erewrite bind_eq by exact Hrun. wsimpl.
    exists w'. rewrite length_app in *. cbn [List.length] in *.
    split; [|split].
    + unfold ret. do 2 f_equal. cbn [seq]. f_equal. f_equal. lia.
    + rewrite Hc. rewrite <- app_assoc. reflexivity.
    + rewrite Hr. destruct kws; cbn [List.length]; f_equal; lia.
Qed.

(** C10: [EnergySystem()] has [entities], [regions] and [simulation] set to
    the empty list and [results] and [time_idx] set to [None]; whatever the
    keyword arguments, the [simulation] attribute is the [simulation]
    argument or else the empty list, so it is a [Simulation] only when one
    was supplied. *)
Theorem EnergySystem_init_defaults (w : world blob) :
  (∃ w' self d,
     EnergySystem.__init__ ∅ w = (w', Ok self)
     ∧ containers w' !! self = Some d
     ∧ d !! "entities" = Some (PyList [])
     ∧ d !! "regions" = Some (PyList [])
     ∧ d !! "simulation" = Some (PyList [])
     ∧ d !! "results" = Some PyNone
     ∧ d !! "time_idx" = Some PyNone)
  ∧ (∀ kwargs, ∃ w' self d,
       EnergySystem.__init__ kwargs w = (w', Ok self)
       ∧ containers w' !! self = Some d
       ∧ d !! "simulation" = Some (default (PyList []) (kwargs !! "simulation"))
       ∧ (∀ sim, d !! "simulation" = Some sim → is_Simulation sim = true →
            kwargs !! "simulation" = Some sim)).
Proof.
  split.
  - do 3 eexists. split; [apply init_eq|]. wsimpl.
    split; [by apply list_lookup_middle|]. by vm_compute.
  - intros kwargs. do 3 eexists. split; [apply init_eq|]. wsimpl.
    split; [by apply list_lookup_middle|].
    assert (init_dict kwargs !! "simulation"
            = Some (default (PyList []) (kwargs !! "simulation"))) as Hs.
    { unfold init_dict. rewrite !lookup_insert_ne by done.
      by rewrite lookup_insert_eq. }
    split; [exact Hs|]. intros sim Hsim Hcls. rewrite Hs in Hsim.
    destruct (kwargs !! "simulation"); simpl in Hsim; [done|].
    injection Hsim as <-. discriminate Hcls.
Qed.

(** C8: each construction of an [EnergySystem] sets [Entity.registry] to the
    new instance, so after any run of constructions the registry is the one
    constructed last, an object different from all constructed before it. *)
Theorem registry_is_last_constructed (w : world blob) (kws : list pydict)
    (kw : pydict) :
  ∃ w' ids self,
    construct_all (kws ++ [kw]) w = (w', Ok (ids ++ [self]))
    ∧ registry w' = Some self
    ∧ containers w' !! self = Some (init_dict kw)
    ∧ List.length ids = List.length kws
    ∧ Forall (λ i, (i < self)%nat) ids
    ∧ (List.length (containers w) ≤ self)%nat.
Proof.
  destruct (construct_all_eq (kws ++ [kw]) w) as (w' & Hrun & Hc & Hr).
  rewrite length_app in *. cbn [List.length] in *.
  rewrite seq_app in Hrun. cbn [seq] in Hrun.
  exists w', (seq (List.length (containers w)) (List.length kws)),
    (List.length (containers w) + List.length kws).
  split; [exact Hrun|]. split.
  { rewrite Hr. destruct kws; simpl; f_equal; lia. }
  split.
  { rewrite Hc, fmap_app. cbn [fmap list_fmap]. rewrite app_assoc.
    apply list_lookup_middle. by rewrite length_app, length_fmap. }
  split; [by rewrite length_seq|]. split; [|lia].
  apply Forall_forall. intros i Hi%elem_of_seq. lia.
Qed.

End ConstructionFacts.

(** ** Region *)

Lemma string_app_cons (c : ascii) (s t : string) :
  (String c s ++ t)%string = String c (s ++ t)%string.
Proof. reflexivity. Qed.


Lemma str_split_once nm :
  str_split " " 1 (str_replace "_" " " nm) =
    fst (cut_at_separator nm) ::
    match snd (cut_at_separator nm) with
    | None => []
    | Some rest => [str_replace "_" " " rest]
    end.
Proof.
  induction nm as [|c nm IH]; [reflexivity|].
  cbn [str_replace str_split cut_at_separator]. unfold is_separator.
  destruct (Ascii.eqb_spec c "_") as [->|Hu].
  { cbn. by destruct (str_replace _ _ nm). }
  destruct (Ascii.eqb_spec c " ") as [->|Hs].
  { cbn. by destruct (str_replace _ _ nm). }
  cbn [orb fst snd]. rewrite IH. reflexivity.
Qed.







Lemma segment_code_empty : segment_code "" = "".
Proof. reflexivity. Qed.






(** ** EnergySystem.connect *)

Section ConnectFacts.
Context {blob : Type}.
Implicit Types (w : world blob) (d : pydict).

Lemma Entity_new_unregistered w cls kwargs :
  registry w = None →
  Entity_new cls kwargs w =
    (set_created (created w ++ [PyObj cls kwargs]) w, Ok (PyObj cls kwargs)).
Proof. intros H. unfold Entity_new. wsimpl. by rewrite H. Qed.

Lemma Entity_new_registered w cls kwargs r d l :
  registry w = Some r → containers w !! r = Some d →
  d !! "entities" = Some (PyList l) →
  Entity_new cls kwargs w =
    (set_containers
       (<[r := <["entities" := PyList (l ++ [PyObj cls kwargs])]> d]> (containers w))
       (set_created (created w ++ [PyObj cls kwargs]) w),
     Ok (PyObj cls kwargs)).
Proof. intros Hr Hd Hl. unfold Entity_new. wsimpl. by rewrite Hr, Hd, Hl. Qed.



Lemma transport_kwargs_is_transport uid in_bus out_bus in_max out_max eta :
  is_transport
    (PyObj transport_Simple_name
       (<["eta" := PyList [eta]]>
       (<["in_max" := PyList [in_max]]>
       (<["out_max" := PyList [out_max]]>
       (<["inputs" := PyList [in_bus]]>
       (<["outputs" := PyList [out_bus]]>
       (<["uid" := uid]> ∅)))))))
    uid in_bus out_bus in_max out_max eta.
Proof.
  eexists. split; [reflexivity|].
  repeat (split; [by simplify_map_eq|]).
  rewrite !dom_insert_L, dom_empty_L. set_solver.
Qed.

Lemma connect_body_eq (k : unit → M blob pyval) w busa busb uida uidb
    in_max out_max eta :
  getattr busa "uid" = Ok (PyTuple uida) →
  getattr busb "uid" = Ok (PyTuple uidb) →
  bind (let! uid_a := lift (getattr busa "uid") in
        let! prefix := lift (tuple_add (PyTuple [PyStr "transport"]) uid_a) in
        let! uid_b := lift (getattr busb "uid") in
        let! uid := lift (tuple_add prefix uid_b) in
        let! _ := call_class transport_Simple
          (<["eta" := PyList [eta]]>
          (<["in_max" := PyList [in_max]]>
          (<["out_max" := PyList [out_max]]>
          (<["inputs" := PyList [busb]]>
          (<["outputs" := PyList [busa]]>
          (<["uid" := uid]> ∅)))))) in
        ret ()) k w =
  bind (Entity_new transport_Simple_name
          (<["eta" := PyList [eta]]>
          (<["in_max" := PyList [in_max]]>
          (<["out_max" := PyList [out_max]]>
          (<["inputs" := PyList [busb]]>
          (<["outputs" := PyList [busa]]>
          (<["uid" := PyTuple (PyStr "transport" :: uida ++ uidb)]> ∅)))))))
       (fun _ => k ()) w.
Proof.
  intros Ha Hb. rewrite !bind_assoc.
  rewrite (bind_lift_ok _ _ _ _ Ha). cbn [tuple_add app].
  rewrite bind_assoc,
    bind_lift_ok with (a := PyTuple (PyStr "transport" :: uida)) by reflexivity.
  rewrite bind_assoc, (bind_lift_ok _ _ _ _ Hb). cbn [tuple_add].
  rewrite bind_assoc, bind_lift_ok
    with (a := PyTuple (PyStr "transport" :: uida ++ uidb)) by reflexivity.
  rewrite bind_assoc. unfold call_class, transport_Simple.
  unfold bind. destruct (Entity_new _ _ w) as [w1 [a|e]]; reflexivity.
Qed.

Lemma connect_Simple_eq w self bus1 bus2 uid1 uid2 in_max out_max eta :
  getattr bus1 "uid" = Ok (PyTuple uid1) →
  getattr bus2 "uid" = Ok (PyTuple uid2) →
  EnergySystem.connect self bus1 bus2 in_max out_max eta transport_Simple w =
    bind (Entity_new transport_Simple_name
            (<["eta" := PyList [eta]]>
            (<["in_max" := PyList [in_max]]>
            (<["out_max" := PyList [out_max]]>
            (<["inputs" := PyList [bus2]]>
            (<["outputs" := PyList [bus1]]>
            (<["uid" := PyTuple (PyStr "transport" :: uid1 ++ uid2)]> ∅)))))))
      (fun _ =>
         bind (Entity_new transport_Simple_name
            (<["eta" := PyList [eta]]>
            (<["in_max" := PyList [in_max]]>
            (<["out_max" := PyList [out_max]]>
            (<["inputs" := PyList [bus1]]>
            (<["outputs" := PyList [bus2]]>
            (<["uid" := PyTuple (PyStr "transport" :: uid2 ++ uid1)]> ∅)))))))
           (fun _ => ret PyNone)) w.
Proof.
  intros H1 H2. unfold EnergySystem.connect.
  cbn [class_eq transport_Simple negb for_each fst snd].
  replace (String.eqb transport_Simple_name transport_Simple_name) with true
    by (symmetry; apply String.eqb_refl).
  cbn [negb]. rewrite bind_ret. rewrite bind_assoc.
  fold transport_Simple. rewrite (connect_body_eq _ _ _ _ _ _ _ _ _ H1 H2).
  apply bind_ext. intros _ w1.
  rewrite bind_assoc. rewrite (connect_body_eq _ _ _ _ _ _ _ _ _ H2 H1).
  apply bind_ext. intros _ w2. reflexivity.
Qed.

(** C2, as the code has it: for two buses whose identifiers are tuples (and
    an active registry that holds an entity list), [connect] with
    [transport.Simple] returns after constructing exactly two transports,
    first the one into [bus1] and then the one into [bus2]; each carries the
    caps and the efficiency as one-element lists and the identifier
    [('transport',) + output.uid + input.uid], and both are appended, in
    that order, to the entities of the active registry. *)
Theorem connect_creates_two_transports (w : world blob) (self : nat)
    (bus1 bus2 : pyval) (uid1 uid2 : list pyval) (in_max out_max eta : pyval) :
  getattr bus1 "uid" = Ok (PyTuple uid1) →
  getattr bus2 "uid" = Ok (PyTuple uid2) →
  registry_ready w →
  ∃ w' t1 t2,
    EnergySystem.connect self bus1 bus2 in_max out_max eta transport_Simple w
      = (w', Ok PyNone)
    ∧ created w' = created w ++ [t1; t2]
    ∧ is_transport t1 (PyTuple (PyStr "transport" :: uid1 ++ uid2))
        bus2 bus1 in_max out_max eta
    ∧ is_transport t2 (PyTuple (PyStr "transport" :: uid2 ++ uid1))
        bus1 bus2 in_max out_max eta
    ∧ (registry w = None → containers w' = containers w)
    ∧ (∀ r d l, registry w = Some r → containers w !! r = Some d →
         d !! "entities" = Some (PyList l) →
         containers w' =
           <[r := <["entities" := PyList (l ++ [t1; t2])]> d]> (containers w))
    ∧ registry w' = registry w ∧ fs w' = fs w ∧ log w' = log w.
Proof.
  intros H1 H2 Hreg. rewrite (connect_Simple_eq _ _ _ _ _ _ _ _ _ H1 H2).
  unfold registry_ready in Hreg.
  destruct (registry w) as [r|] eqn:Hr.
  - destruct Hreg as (d & l & Hd & Hl).
    erewrite bind_eq by by eapply Entity_new_registered.
    erewrite bind_eq.
    2:{ eapply Entity_new_registered; wsimpl; [exact Hr| |].
        - apply list_lookup_insert_eq. by eapply lookup_lt_Some.
        - apply lookup_insert_eq. }
    eexists _, (PyObj transport_Simple_name _), (PyObj transport_Simple_name _).
    split; [reflexivity|]. wsimpl.
    split; [by rewrite <- app_assoc|].
    split; [apply transport_kwargs_is_transport|].
    split; [apply transport_kwargs_is_transport|].
    split; [done|]. split; [|done].
    intros r' d' l' [= <-] Hd' Hl'. rewrite Hd in Hd'. injection Hd' as <-.
    rewrite Hl in Hl'. injection Hl' as <-.
    rewrite list_insert_insert_eq, insert_insert_eq. by rewrite <- app_assoc.
  - erewrite bind_eq by by eapply Entity_new_unregistered.
    erewrite bind_eq by by eapply Entity_new_unregistered.
    eexists _, (PyObj transport_Simple_name _), (PyObj transport_Simple_name _).
    split; [reflexivity|]. wsimpl.
    split; [by rewrite <- app_assoc|].
    split; [apply transport_kwargs_is_transport|].
    split; [apply transport_kwargs_is_transport|].
    done.
Qed.


End ConnectFacts.

(** The example processes, unfolded. *)
Lemma world1_eq :
  world1 = World [init_dict ∅] (Some 0) [] (fs world0) (home_env world0) (log world0).
Proof. unfold world1. rewrite init_eq. reflexivity. Qed.

Lemma world2_eq :
  world2 = World [init_dict {["simulation" := sim_glpk]}] (Some 0) []
             (fs world0) (home_env world0) (log world0).
Proof. unfold world2. rewrite init_eq. reflexivity. Qed.

Lemma init_dict_empty_entities : init_dict ∅ !! "entities" = Some (PyList []).
Proof. vm_compute. reflexivity. Qed.

(** [connect] between two buses identified by tuples, in a process with one
    container. *)
Lemma connect_creates_two_transports_witness :
  ∃ w' t1 t2,
    EnergySystem.connect 0 bus_north bus_south (PyInt 10) (PyInt 8) float_0_9
      transport_Simple world1 = (w', Ok PyNone)
    ∧ created w' = [t1; t2]
    ∧ getattr t1 "uid" =
        Ok (PyTuple [PyStr "transport"; PyStr "bel"; PyStr "north";
                     PyStr "bel"; PyStr "south"])
    ∧ getattr t2 "uid" =
        Ok (PyTuple [PyStr "transport"; PyStr "bel"; PyStr "south";
                     PyStr "bel"; PyStr "north"])
    ∧ (containers w' !! 0) ≫= (.!! "entities") = Some (PyList [t1; t2]).
Proof.
  assert (registry world1 = Some 0) as Hr by (by rewrite world1_eq).
  assert (containers world1 !! 0 = Some (init_dict ∅)) as Hc
    by (by rewrite world1_eq).
  assert (created world1 = []) as Hcr by (by rewrite world1_eq).
  destruct (connect_creates_two_transports world1 0 bus_north bus_south
              [PyStr "bel"; PyStr "north"] [PyStr "bel"; PyStr "south"]
              (PyInt 10) (PyInt 8) float_0_9)
    as (w' & t1 & t2 & Hrun & Hcreated & Ht1 & Ht2 & _ & Hreg & _).
  - vm_compute; reflexivity.
  - vm_compute; reflexivity.
  - unfold registry_ready. rewrite Hr. exists (init_dict ∅), [].
    split; [exact Hc|exact init_dict_empty_entities].
  - exists w', t1, t2. split; [exact Hrun|].
    split; [by rewrite Hcreated, Hcr|].
    destruct Ht1 as (a1 & -> & Hu1 & _). destruct Ht2 as (a2 & -> & Hu2 & _).
    cbn [getattr]. rewrite Hu1, Hu2. split; [reflexivity|].
    split; [reflexivity|].
    rewrite (Hreg 0 (init_dict ∅) [] Hr Hc init_dict_empty_entities).
    rewrite list_lookup_insert_eq by (by eapply lookup_lt_Some).
    cbn [mbind option_bind]. by rewrite lookup_insert_eq.
Defined.

(** C2, as stated, fails: the buses of the test suite are identified by
    strings, and [connect] between them raises [TypeError] at the first
    concatenation, before any transport is constructed. *)
Lemma connect_string_uid_raises :
  getattr bgas "uid" = Ok (PyStr "bgas")
  ∧ getattr bel "uid" = Ok (PyStr "bel")
  ∧ EnergySystem.connect 0 bgas bel (PyInt 10) (PyInt 8) float_0_9
      transport_Simple world1
    = (world1, Raise (TypeError "can only concatenate tuple to tuple")).
Proof.
  split; [reflexivity|]. split; [reflexivity|]. vm_compute. reflexivity.
Qed.


(** ** EnergySystem.optimize *)

Section OptimizeFacts.
Context {blob : Type} `{!Compiler}.
Implicit Types (w : world blob) (d : pydict).

Lemma simulation_attr_eq w self d sim name v :
  containers w !! self = Some d → d !! "simulation" = Some sim →
  getattr sim name = Ok v →
  EnergySystem.simulation_attr self name w = (w, Ok v).
Proof.
  intros Hd Hsim Hv. unfold EnergySystem.simulation_attr.
  erewrite bind_eq by by eapply getattr_self_eq. by rewrite Hv.
Qed.

(** C4, as the code has it: when the container's [simulation] attribute is
    a configuration with the attributes [solver], [debug], [verbose],
    [duals] and [solve_kwargs], and the compiler builds, solves and extracts
    without raising, [optimize()] builds the model from this container,
    calls [solve] with exactly these five keyword arguments, stores the
    results on the container and returns the container itself. *)
Theorem optimize_returns_self (w : world blob) (self : nat) (d : pydict)
    (sim solver debug verbose duals solve_kwargs : pyval) (om om' : OM)
    (results : pyval) :
  containers w !! self = Some d →
  d !! "simulation" = Some sim →
  getattr sim "solver" = Ok solver →
  getattr sim "debug" = Ok debug →
  getattr sim "verbose" = Ok verbose →
  getattr sim "duals" = Ok duals →
  getattr sim "solve_kwargs" = Ok solve_kwargs →
  OM_new self d = Ok om →
  OM_solve om
    (<["solve_kwargs" := solve_kwargs]>
    (<["duals" := duals]>
    (<["verbose" := verbose]>
    (<["debug" := debug]>
    (<["solver" := solver]> ∅))))) = Ok om' →
  OM_results om' = Ok results →
  EnergySystem.optimize self None w =
    (set_containers (<[self := <["results" := results]> d]> (containers w)) w,
     Ok self).
Proof.
  intros Hd Hsim Hsolver Hdebug Hverbose Hduals Hkw Hnew Hsolve Hres.
  unfold EnergySystem.optimize.
  rewrite bind_assoc. erewrite bind_eq by by apply get_dict_eq.
  rewrite (bind_lift_ok _ _ _ _ Hnew).
  erewrite bind_eq by by eapply simulation_attr_eq.
  erewrite bind_eq by by eapply simulation_attr_eq.
  erewrite bind_eq by by eapply simulation_attr_eq.
  erewrite bind_eq by by eapply simulation_attr_eq.
  erewrite bind_eq by by eapply simulation_attr_eq.
  rewrite (bind_lift_ok _ _ _ _ Hsolve).
  rewrite (bind_lift_ok _ _ _ _ Hres).
  erewrite bind_eq by by eapply setattr_self_eq.
  reflexivity.
Qed.

(** C5: whenever [optimize] raises, the process is in the state it was
    called in, so the [results] attribute is unchanged; and an exception
    raised while the model is built or solved is the one [optimize]
    raises. *)
Theorem optimize_error_keeps_state (w : world blob) (self : nat)
    (om_arg : option OM) :
  (∀ w' e, EnergySystem.optimize self om_arg w = (w', Raise e) → w' = w)
  ∧ (∀ d e, containers w !! self = Some d → OM_new self d = Raise e →
       EnergySystem.optimize self None w = (w, Raise e))
  ∧ (∀ d sim solver debug verbose duals solve_kwargs om e,
       containers w !! self = Some d →
       d !! "simulation" = Some sim →
       getattr sim "solver" = Ok solver →
       getattr sim "debug" = Ok debug →
       getattr sim "verbose" = Ok verbose →
       getattr sim "duals" = Ok duals →
       getattr sim "solve_kwargs" = Ok solve_kwargs →
       match om_arg with Some m => Ok m | None => OM_new self d end = Ok om →
       OM_solve om
         (<["solve_kwargs" := solve_kwargs]>
         (<["duals" := duals]>
         (<["verbose" := verbose]>
         (<["debug" := debug]>
         (<["solver" := solver]> ∅))))) = Raise e →
       EnergySystem.optimize self om_arg w = (w, Raise e)).
Proof.
  split; [|split].
  - intros w' e. unfold EnergySystem.optimize.
    apply readonly_bind_raise.
    { destruct om_arg; [apply readonly_ret|].
      apply readonly_bind; [apply readonly_get_dict|].
      intros d0. apply readonly_lift. }
    intros om0.
    do 5 (apply readonly_bind_raise; [apply readonly_simulation_attr|]; intros ?).
    apply readonly_bind_raise; [apply readonly_lift|]. intros om1.
    apply readonly_bind_raise; [apply readonly_lift|]. intros res.
    intros [Hset|(u & w1 & _ & Hret)]%bind_raise_inv; [|discriminate Hret].
    by eapply setattr_self_raise.
  - intros d e Hd Hnew. unfold EnergySystem.optimize.
    rewrite bind_assoc. erewrite bind_eq by by apply get_dict_eq.
    by rewrite (bind_lift_raise _ _ _ _ Hnew).
  - intros d sim solver debug verbose duals solve_kwargs om e
      Hd Hsim Hsolver Hdebug Hverbose Hduals Hkw Hom Hsolve.
    unfold EnergySystem.optimize.
    assert ((match om_arg with
             | Some om0 => ret om0
             | None => let! d0 := EnergySystem.get_dict self in lift (OM_new self d0)
             end) w = (w, Ok om)) as Hm.
    { destruct om_arg as [m|].
      - by injection Hom as ->.
      - erewrite bind_eq by by apply get_dict_eq. unfold lift. by rewrite Hom. }
    erewrite bind_eq by exact Hm.
    erewrite bind_eq by by eapply simulation_attr_eq.
    erewrite bind_eq by by eapply simulation_attr_eq.
    erewrite bind_eq by by eapply simulation_attr_eq.
    erewrite bind_eq by by eapply simulation_attr_eq.
    erewrite bind_eq by by eapply simulation_attr_eq.
    by rewrite (bind_lift_raise _ _ _ _ Hsolve).
Qed.

End OptimizeFacts.

(** [optimize()] on a container constructed with the test suite's
    configuration, with a compiler whose results show the keyword arguments
    of [solve]. *)
Lemma optimize_returns_self_witness :
  ∃ w',
    @EnergySystem.optimize pyval echo_compiler 0 None world2 = (w', Ok 0)
    ∧ (containers w' !! 0) ≫= (.!! "results") =
        Some (PyDict
          (<["solve_kwargs" := PyDict ∅]>
          (<["duals" := PyBool false]>
          (<["verbose" := PyBool false]>
          (<["debug" := PyBool false]>
          (<["solver" := PyStr "glpk"]> ∅)))))).
Proof.
  exists (set_containers
            (<[0 := <["results" := PyDict glpk_solve_kwargs]>
                      (init_dict {["simulation" := sim_glpk]})]>
               (containers world2)) world2).
  split.
  - apply (@optimize_returns_self pyval echo_compiler world2 0
             (init_dict {["simulation" := sim_glpk]}) sim_glpk
             (PyStr "glpk") (PyBool false) (PyBool false) (PyBool false)
             (PyDict ∅) ∅ glpk_solve_kwargs (PyDict glpk_solve_kwargs));
      vm_compute; reflexivity.
  - vm_compute. reflexivity.
Defined.

(** C4, as stated, fails: the [simulation] attribute of [EnergySystem()] is
    the empty list, and [optimize()] on it raises [AttributeError], even
    with a compiler that never fails. *)
Lemma optimize_default_container_raises :
  (containers world1 !! 0) ≫= (.!! "simulation") = Some (PyList [])
  ∧ @EnergySystem.optimize pyval echo_compiler 0 None world1
    = (world1, Raise (AttributeError "solver")).
Proof.
  split; vm_compute; reflexivity.
Qed.

(** [optimize()] with a solver that fails: the exception is raised and the
    container keeps the results it had. *)
Lemma optimize_error_keeps_state_witness :
  @EnergySystem.optimize pyval infeasible_compiler 0 None world2
    = (world2, Raise (SolverError "infeasible"))
  ∧ (containers world2 !! 0) ≫= (.!! "results") = Some PyNone.
Proof.
  split; [|vm_compute; reflexivity].
  destruct (@optimize_error_keeps_state pyval infeasible_compiler world2 0 None)
    as (_ & _ & Hsolve).
  apply (Hsolve (init_dict {["simulation" := sim_glpk]}) sim_glpk
           (PyStr "glpk") (PyBool false) (PyBool false) (PyBool false)
           (PyDict ∅) tt);
    vm_compute; reflexivity.
Defined.

(** ** EnergySystem.dump and EnergySystem.restore *)

Section SnapshotFacts.
Context {blob : Type} `{!Pickle blob}.
Implicit Types (w : world blob) (d : pydict) (f : filesystem blob).

Lemma preserves_bind {A B} (R : world blob → world blob → Prop)
    (c : M blob A) (k : A → M blob B) :
  (∀ w1 w2 w3, R w1 w2 → R w2 w3 → R w1 w3) →
  preserves R c → (∀ a, preserves R (k a)) → preserves R (bind c k).
Proof.
  intros Htrans Hc Hk w. unfold bind. specialize (Hc w).
  destruct (c w) as [w1 [a|e]]; cbn [fst] in *; [|done].
  eapply Htrans; [exact Hc|apply Hk].
Qed.

Lemma preserves_readonly {A} (R : world blob → world blob → Prop) (c : M blob A) :
  (∀ w, R w w) → readonly c → preserves R c.
Proof. intros Hrefl Hc w. by rewrite Hc. Qed.

Lemma same_objects_refl w : same_objects w w.
Proof. by unfold same_objects. Qed.

Lemma same_objects_trans w1 w2 w3 :
  same_objects w1 w2 → same_objects w2 w3 → same_objects w1 w3.
Proof. unfold same_objects. intros (?&?&?&?) (?&?&?&?). repeat split; congruence. Qed.

Lemma same_objects_logging level msg : preserves same_objects (logging (blob := blob) level msg).
Proof. by intros w. Qed.

Lemma same_objects_os_mkdir p : preserves same_objects (os_mkdir (blob := blob) p).
Proof. intros w. unfold os_mkdir. by destruct (mkdir_fs p (fs w)). Qed.

Lemma same_objects_open_wb p : preserves same_objects (open_wb (blob := blob) p).
Proof. intros w. unfold open_wb. by destruct (open_wb_fs p (fs w)). Qed.

Lemma same_objects_pickle_dump v p : preserves same_objects (pickle_dump v p).
Proof.
  intros w. unfold pickle_dump, bind, lift. by destruct (pickle_dumps v).
Qed.

Lemma readonly_isdir p : readonly (os_path_isdir (blob := blob) p).
Proof. by intros w. Qed.

Lemma readonly_expanduser : readonly (os_path_expanduser_tilde (blob := blob)).
Proof. by intros w. Qed.

Lemma same_objects_dump self dpath filename keep_weather :
  preserves same_objects (EnergySystem.dump self dpath filename keep_weather).
Proof.
  pose proof same_objects_trans as Ht. pose proof same_objects_refl as Hr.
  unfold EnergySystem.dump. apply preserves_bind; [done| |].
  { destruct dpath; [by apply preserves_readonly, readonly_ret|].
    apply preserves_bind; [done|by apply preserves_readonly, readonly_expanduser|].
    intros home. apply preserves_bind;
      [done|by apply preserves_readonly, readonly_isdir|].
    intros b. apply preserves_bind; [done| |].
    { destruct b; [by apply preserves_readonly, readonly_ret|].
      apply same_objects_os_mkdir. }
    intros _. apply preserves_bind;
      [done|by apply preserves_readonly, readonly_isdir|].
    intros b'. apply preserves_bind; [done| |].
    { destruct b'; [by apply preserves_readonly, readonly_ret|].
      apply same_objects_os_mkdir. }
    intros _. by apply preserves_readonly, readonly_ret. }
  intros dp. apply preserves_bind;
    [done|by apply preserves_readonly, readonly_get_dict|].
  intros d. apply preserves_bind; [done|apply same_objects_open_wb|].
  intros file. apply preserves_bind; [done|apply same_objects_pickle_dump|].
  intros _. apply preserves_bind; [done|apply same_objects_logging|].
  intros _. by apply preserves_readonly, readonly_ret.
Qed.

Lemma os_mkdir_ok_inv p w w' :
  os_mkdir p w = (w', Ok tt) →
  dirs (fs w') = ({[p]} ∪ dirs (fs w)) ∧ files (fs w') = files (fs w)
  ∧ denied (fs w') = denied (fs w).
Proof.
  unfold os_mkdir, mkdir_fs. intros Hrun.
  repeat case_match; simplify_eq; done.
Qed.

Lemma open_wb_ok_inv p w w' file :
  open_wb p w = (w', Ok file) →
  file = p ∧ (p ∉ dirs (fs w)) ∧ (p ∉ denied (fs w))
  ∧ os_path_dirname p ∈ dirs (fs w)
  ∧ fs w' = FileSystem (dirs (fs w)) (<[p := None]> (files (fs w))) (denied (fs w)).
Proof.
  unfold open_wb, open_wb_fs. intros Hrun.
  repeat case_match; simplify_eq.
  repeat match goal with
  | H : bool_decide _ = false |- _ => apply bool_decide_eq_false in H
  | H : negb _ = false |- _ => apply negb_false_iff, bool_decide_eq_true in H
  | H : _ || _ = false |- _ => apply orb_false_iff in H as [? ?]
  end. done.
Qed.

Lemma pickle_dump_ok_inv v p w w' :
  pickle_dump v p w = (w', Ok tt) →
  ∃ b, pickle_dumps v = Ok b
     ∧ fs w' = FileSystem (dirs (fs w)) (<[p := Some b]> (files (fs w))) (denied (fs w)).
Proof.
  unfold pickle_dump, bind, lift. destruct (pickle_dumps v) as [b|e]; [|done].
  intros [= <-]. eauto.
Qed.

(** [if not os.path.isdir(p): os.mkdir(p)] *)
Lemma ensure_dir_ok_inv p w w' :
  (if negb (bool_decide (p ∈ dirs (fs w))) then os_mkdir p else ret ()) w
    = (w', Ok ()) →
  p ∈ dirs (fs w') ∧ dirs (fs w) ⊆ dirs (fs w')
  ∧ dirs (fs w') ⊆ {[p]} ∪ dirs (fs w)
  ∧ files (fs w') = files (fs w) ∧ denied (fs w') = denied (fs w).
Proof.
  destruct (bool_decide (p ∈ dirs (fs w))) eqn:Hb; cbn [negb].
  - intros [= <-]. apply bool_decide_eq_true in Hb. set_solver.
  - intros (Hd & Hf & Hn)%os_mkdir_ok_inv. rewrite Hd. set_solver.
Qed.

(** The directory part of [dump]. *)
Lemma dump_dir_ok_inv (dpath : option string) w w' dp :
  (match dpath with
   | None =>
       let! home := os_path_expanduser_tilde in
       let bpath := os_path_join home [".oemof"] in
       let! b := os_path_isdir bpath in
       (if negb b then os_mkdir bpath else ret tt) ;;;
       let dpath := os_path_join bpath ["dumps"] in
       let! b := os_path_isdir dpath in
       (if negb b then os_mkdir dpath else ret tt) ;;;
       ret dpath
   | Some dpath => ret dpath
   end) w = (w', Ok dp) →
  dp = default (default_dpath (home_env w)) dpath
  ∧ files (fs w') = files (fs w) ∧ denied (fs w') = denied (fs w)
  ∧ dirs (fs w) ⊆ dirs (fs w')
  ∧ match dpath with
    | None =>
        default_bpath (home_env w) ∈ dirs (fs w')
        ∧ default_dpath (home_env w) ∈ dirs (fs w')
        ∧ dirs (fs w') ⊆
            {[default_bpath (home_env w); default_dpath (home_env w)]}
            ∪ dirs (fs w)
    | Some _ => dirs (fs w') = dirs (fs w)
    end.
Proof.
  destruct dpath as [p|].
  { intros [= <- <-]. done. }
  intros (home & w0 & [= <- <-] & Hrun)%bind_ok_inv.
  apply bind_ok_inv in Hrun as (b1 & w0 & [= <- <-] & Hrun).
  apply bind_ok_inv in Hrun as ([] & w1 & Hmk1 & Hrun).
  apply bind_ok_inv in Hrun as (b2 & w2 & [= <- <-] & Hrun).
  apply bind_ok_inv in Hrun as ([] & w2 & Hmk2 & [= -> <-]).
  apply ensure_dir_ok_inv in Hmk1 as (Hin1 & Hsub1 & Hsup1 & Hf1 & Hn1).
  apply ensure_dir_ok_inv in Hmk2 as (Hin2 & Hsub2 & Hsup2 & Hf2 & Hn2).
  change (os_path_join (expanduser_tilde (home_env w)) [".oemof"])
    with (default_bpath (home_env w)) in *.
  change (os_path_join (default_bpath (home_env w)) ["dumps"])
    with (default_dpath (home_env w)) in *.
  cbn [default]. split; [done|]. split; [congruence|]. split; [congruence|].
  clear -Hin1 Hsub1 Hsup1 Hin2 Hsub2 Hsup2.
  set (bp := default_bpath (home_env w)) in *.
  set (dp := default_dpath (home_env w)) in *. clearbody bp dp.
  split; [set_solver|]. split; [set_solver|]. split; [done|]. set_solver.
Qed.

Lemma same_objects_dump_dir (dpath : option string) :
  preserves (blob := blob) same_objects
    (match dpath with
     | None =>
         let! home := os_path_expanduser_tilde in
         let bpath := os_path_join home [".oemof"] in
         let! b := os_path_isdir bpath in
         (if negb b then os_mkdir bpath else ret tt) ;;;
         let dpath := os_path_join bpath ["dumps"] in
         let! b := os_path_isdir dpath in
         (if negb b then os_mkdir dpath else ret tt) ;;;
         ret dpath
     | Some dpath => ret dpath
     end).
Proof.
  pose proof same_objects_trans as Ht.
  pose proof same_objects_refl as Hr.
  destruct dpath; [by apply preserves_readonly, readonly_ret|].
  apply preserves_bind; [done|by apply preserves_readonly, readonly_expanduser|].
  intros home. apply preserves_bind;
    [done|by apply preserves_readonly, readonly_isdir|].
  intros b. apply preserves_bind; [done| |].
  { destruct b; [by apply preserves_readonly, readonly_ret|].
    apply same_objects_os_mkdir. }
  intros _. apply preserves_bind;
    [done|by apply preserves_readonly, readonly_isdir|].
  intros b'. apply preserves_bind; [done| |].
  { destruct b'; [by apply preserves_readonly, readonly_ret|].
    apply same_objects_os_mkdir. }
  intros _. by apply preserves_readonly, readonly_ret.
Qed.

Lemma same_objects_containers w w' : same_objects w w' → containers w' = containers w.
Proof. by intros (? & _). Qed.

Lemma dump_ok_inv w w1 self dpath filename keep_weather msg :
  EnergySystem.dump self dpath filename keep_weather w = (w1, Ok msg) →
  ∃ d b,
    containers w !! self = Some d
    ∧ pickle_dumps (PyDict d) = Ok b
    ∧ msg = PyStr ("Attributes dumped to: " +:+ snapshot_path (home_env w) dpath filename)
    ∧ files (fs w1) =
        <[snapshot_path (home_env w) dpath filename := Some b]> (files (fs w))
    ∧ (snapshot_path (home_env w) dpath filename ∉ dirs (fs w1))
    ∧ (snapshot_path (home_env w) dpath filename ∉ denied (fs w1))
    ∧ denied (fs w1) = denied (fs w)
    ∧ dirs (fs w) ⊆ dirs (fs w1)
    ∧ match dpath with
      | None =>
          default_bpath (home_env w) ∈ dirs (fs w1)
          ∧ default_dpath (home_env w) ∈ dirs (fs w1)
          ∧ dirs (fs w1) ⊆
              {[default_bpath (home_env w); default_dpath (home_env w)]}
              ∪ dirs (fs w)
      | Some _ => dirs (fs w1) = dirs (fs w)
      end.
Proof.
  unfold EnergySystem.dump.
  intros (dp & wa & Hdir & Hrun)%bind_ok_inv.
  pose proof (same_objects_dump_dir dpath w) as Hso. cbv zeta in Hso, Hdir.
  rewrite Hdir in Hso. cbn [fst] in Hso. apply same_objects_containers in Hso.
  apply dump_dir_ok_inv in Hdir as (-> & Hfa & Hna & Hsub & Hdirs).
  fold (snapshot_path (home_env w) dpath filename) in Hrun.
  set (path := snapshot_path (home_env w) dpath filename) in *.
  apply bind_ok_inv in Hrun as (d & wb & Hd & Hrun).
  assert (wb = wa) as ->.
  { pose proof (readonly_get_dict self wa) as Hro. by rewrite Hd in Hro. }
  apply bind_ok_inv in Hrun as (file & wc & Hopen & Hrun).
  apply open_wb_ok_inv in Hopen as (-> & Hnd & Hnn & _ & Hfc).
  apply bind_ok_inv in Hrun as ([] & wd & Hpd & Hrun).
  apply pickle_dump_ok_inv in Hpd as (b & Hb & Hfd).
  apply bind_ok_inv in Hrun as ([] & we & [= <-] & [= <- <-]).
  wsimpl. rewrite Hfd, Hfc in *. wsimpl.
  exists d, b. split.
  { unfold EnergySystem.get_dict in Hd. rewrite Hso in Hd.
    destruct (containers w !! self) eqn:Hl; [|done]. by injection Hd as <-. }
  split; [done|]. split; [done|].
  split; [by rewrite insert_insert_eq, Hfa|].
  split; [done|]. split; [done|]. split; [done|]. split; [done|].
  done.
Qed.

Lemma restore_path_eq (home : string) (dpath filename : option string) :
  os_path_join
    (match dpath with
     | None => os_path_join (expanduser_tilde home) [".oemof"; "dumps"]
     | Some p => p
     end) [default "es_dump.oemof" filename]
  = snapshot_path home dpath filename.
Proof. by destruct dpath. Qed.

(** [restore] up to the file name: the log record, then the directory. *)
Lemma restore_eq self dpath filename w :
  EnergySystem.restore self dpath filename w =
    (let path := snapshot_path (home_env w) dpath filename in
     let! file := open_rb path in
     let! loaded := pickle_load file in
     match loaded with
     | PyDict d => EnergySystem.set_dict self d
     | _ => raise (TypeError "__dict__ must be set to a dictionary")
     end ;;;
     logging "DEBUG" ("Attributes restored from: " +:+ path) ;;;
     ret (PyStr ("Attributes restored from: " +:+ path)))
    (set_log
       (log w ++ [("INFO", "Restoring attributes will overwrite existing attributes.")])
       w).
Proof.
  unfold EnergySystem.restore. erewrite bind_eq by reflexivity.
  cbv zeta. rewrite <- restore_path_eq.
  destruct dpath as [p|]; [by rewrite bind_ret|].
  rewrite bind_assoc. erewrite bind_eq by reflexivity.
  rewrite bind_ret. reflexivity.
Qed.

Lemma restore_ok w other d0 d b dpath filename :
  containers w !! other = Some d0 →
  files (fs w) !! snapshot_path (home_env w) dpath filename = Some (Some b) →
  snapshot_path (home_env w) dpath filename ∉ dirs (fs w) →
  snapshot_path (home_env w) dpath filename ∉ denied (fs w) →
  pickle_loads b = Ok (PyDict d) →
  EnergySystem.restore other dpath filename w =
    (World (<[other := d]> (containers w)) (registry w) (created w) (fs w)
       (home_env w)
       (log w ++
          [("INFO", "Restoring attributes will overwrite existing attributes.");
           ("DEBUG", "Attributes restored from: " +:+
                       snapshot_path (home_env w) dpath filename)]),
     Ok (PyStr ("Attributes restored from: " +:+
                  snapshot_path (home_env w) dpath filename))).
Proof.
  intros Hother Hfile Hnd Hnn Hload. rewrite restore_eq. cbv zeta.
  erewrite bind_eq.
  2:{ unfold open_rb, open_rb_fs. wsimpl.
      rewrite bool_decide_eq_false_2 by done. rewrite Hfile.
      rewrite bool_decide_eq_false_2 by done. reflexivity. }
  erewrite bind_eq by (unfold pickle_load, lift; by rewrite Hload).
  erewrite bind_eq by by eapply set_dict_eq.
  erewrite bind_eq by reflexivity. unfold ret, set_log, set_containers. wsimpl.
  by rewrite <- app_assoc.
Qed.

(** X1: after a [dump] that returned, [restore] with the same directory and
    file name, into any container of a process that has the same file system
    and home directory, returns, and that container's whole attribute
    dictionary is the dumped one (replaced, not merged); the other
    containers, the registry and the file system are untouched. *)
Theorem dump_restore_roundtrip (w w1 w2 : world blob) (self other : nat)
    (dpath filename : option string) (keep_weather : bool) (msg : pyval)
    (d : pydict) :
  containers w !! self = Some d →
  EnergySystem.dump self dpath filename keep_weather w = (w1, Ok msg) →
  fs w2 = fs w1 → home_env w2 = home_env w →
  is_Some (containers w2 !! other) →
  ∃ w3 msg',
    EnergySystem.restore other dpath filename w2 = (w3, Ok msg')
    ∧ containers w3 !! other = Some d
    ∧ (∀ i, i ≠ other → containers w3 !! i = containers w2 !! i)
    ∧ registry w3 = registry w2 ∧ created w3 = created w2 ∧ fs w3 = fs w2.
Proof.
  intros Hd (d' & b & Hd' & Hb & _ & Hf & Hnd & Hnn & _)%dump_ok_inv
    Hfs Hhome [d0 Hother].
  rewrite Hd in Hd'. injection Hd' as <-.
  do 2 eexists. split.
  - eapply restore_ok; rewrite ?Hfs, ?Hhome; [exact Hother| | done | done |].
    + rewrite Hf. apply lookup_insert_eq.
    + by apply pickle_loads_dumps.
  - wsimpl. split.
    { apply list_lookup_insert_eq. by eapply lookup_lt_Some. }
    split; [|done]. intros i Hi. by apply list_lookup_insert_ne.
Qed.

(** X2: a [restore] that raises (missing or unreadable file, bad pickle, a
    pickle that is no dictionary) has written its first log record and
    changed nothing else: no container is touched. *)
Theorem restore_error_keeps_state (w w' : world blob) (self : nat)
    (dpath filename : option string) (e : exn) :
  EnergySystem.restore self dpath filename w = (w', Raise e) →
  w' = set_log
         (log w ++ [("INFO", "Restoring attributes will overwrite existing attributes.")])
         w.
Proof.
  rewrite restore_eq. cbv zeta.
  generalize (set_log (log w ++ [("INFO", "Restoring attributes will overwrite existing attributes.")]) w).
  intros w0. apply readonly_bind_raise.
  { intros w1. reflexivity. }
  intros file. apply readonly_bind_raise.
  { intros w1. unfold pickle_load. destruct file; reflexivity. }
  intros loaded.
  intros [Hset|(u & w1 & _ & Hrest)]%bind_raise_inv.
  - destruct loaded; try (by injection Hset as ->). by eapply set_dict_raise.
  - apply bind_raise_inv in Hrest as [Hlog|(u' & w2 & _ & Hret)]; discriminate.
Qed.
End SnapshotFacts.

(** ** Paths *)

Lemma string_app_assoc (a b c : string) : (a +:+ b) +:+ c = a +:+ (b +:+ c).
Proof.
  induction a as [|x a IH]; [done|]. rewrite !string_app_cons. by rewrite IH.
Qed.

Lemma endswith_slash_rstrip (s : string) : endswith_slash (rstrip_slash s) = false.
Proof.
  induction s as [|c s IH]; [done|]. cbn [rstrip_slash].
  destruct (rstrip_slash s) as [|c' r] eqn:Hr.
  - destruct (Ascii.eqb_spec c slash) as [->|Hc]; [done|].
    cbn. by apply Ascii.eqb_neq.
  - exact IH.
Qed.

Lemma endswith_slash_app (a b : string) :
  b ≠ "" → endswith_slash (a +:+ b) = endswith_slash b.
Proof.
  intros Hb. induction a as [|c a IH]; [done|]. rewrite string_app_cons.
  cbn [endswith_slash]. destruct (a +:+ b) eqn:Hab; [|exact IH].
  destruct a, b; done.
Qed.

Lemma join2_clean (a b : string) :
  a ≠ "" → endswith_slash a = false → startswith_slash b = false →
  join2 a b = a +:+ "/" +:+ b.
Proof.
  intros Ha He Hb. unfold join2. rewrite Hb, He.
  destruct a; [done|]. reflexivity.
Qed.

(** The default snapshot file, as a string. *)
Lemma snapshot_path_default (home : string) :
  snapshot_path home None None
  = rstrip_slash home +:+ "/.oemof/dumps/es_dump.oemof".
Proof.
  unfold snapshot_path, default_dpath, default_bpath, expanduser_tilde,
    os_path_join. cbn [default fold_left].
  pose proof (endswith_slash_rstrip home) as He.
  destruct (rstrip_slash home) as [|c h] eqn:Hh; [reflexivity|].
  rewrite (join2_clean (String c h) ".oemof") by done.
  rewrite (join2_clean _ "dumps");
    [|done|by rewrite endswith_slash_app; [rewrite endswith_slash_app|]|done].
  rewrite (join2_clean _ "es_dump.oemof");
    [|done|by rewrite endswith_slash_app; [rewrite endswith_slash_app|]|done].
  rewrite !string_app_assoc. reflexivity.
Qed.

Lemma has_slash_app (a b : string) : has_slash (a +:+ b) = has_slash a || has_slash b.
Proof.
  induction a as [|c a IH]; [done|]. rewrite string_app_cons.
  cbn [has_slash]. rewrite IH. by rewrite orb_assoc.
Qed.

Lemma upto_last_slash_none (n : string) : has_slash n = false → upto_last_slash n = "".
Proof. destruct n as [|c n]; [done|]. cbn [upto_last_slash]. by intros ->. Qed.

Lemma upto_last_slash_app (a n : string) :
  has_slash n = false → upto_last_slash (a +:+ String slash n) = a +:+ "/".
Proof.
  intros Hn. induction a as [|c a IH].
  - change (upto_last_slash (String slash n) = "/").
    cbn [upto_last_slash has_slash]. rewrite Ascii.eqb_refl. cbn [orb].
    by rewrite upto_last_slash_none.
  - rewrite !string_app_cons. cbn [upto_last_slash].
    rewrite <- string_app_cons, has_slash_app. cbn [has_slash].
    rewrite Ascii.eqb_refl, orb_true_r. by rewrite IH.
Qed.

Lemma rstrip_slash_app_slash (a : string) : rstrip_slash (a +:+ "/") = rstrip_slash a.
Proof.
  induction a as [|c a IH]; [done|]. rewrite string_app_cons.
  cbn [rstrip_slash]. by rewrite IH.
Qed.

Lemma rstrip_slash_fixed (a : string) : endswith_slash a = false → rstrip_slash a = a.
Proof.
  induction a as [|c a IH]; [done|]. cbn [endswith_slash rstrip_slash].
  destruct a as [|c' a].
  - cbn. by intros ->.
  - intros H. by rewrite IH.
Qed.

Lemma rstrip_slash_idemp (s : string) : rstrip_slash (rstrip_slash s) = rstrip_slash s.
Proof. apply rstrip_slash_fixed, endswith_slash_rstrip. Qed.

(** [os.path.dirname(a + '/' + n)] is [a] for a directory [a] without a
    trailing slash and a name [n] without a slash. *)
Lemma dirname_child (a n : string) :
  a ≠ "" → endswith_slash a = false → has_slash n = false →
  os_path_dirname (a +:+ "/" +:+ n) = a.
Proof.
  intros Ha He Hn. unfold os_path_dirname.
  change (a +:+ "/" +:+ n) with (a +:+ String slash n).
  rewrite upto_last_slash_app by done.
  rewrite rstrip_slash_app_slash, rstrip_slash_fixed by done.
  by destruct a.
Qed.

Lemma string_length_app (a b : string) :
  String.length (a +:+ b) = (String.length a + String.length b)%nat.
Proof.
  induction a as [|c a IH]; [done|]. rewrite string_app_cons.
  cbn [String.length]. by rewrite IH.
Qed.

Lemma string_app_ne (a b : string) : b ≠ "" → a +:+ b ≠ a.
Proof.
  intros Hb Heq. apply (f_equal String.length) in Heq.
  rewrite string_length_app in Heq. destruct b; [done|].
  cbn [String.length] in Heq. lia.
Qed.

(** The default directories, as strings, and their parents. *)
Lemma default_bpath_eq (home : string) :
  default_bpath home = rstrip_slash home +:+ "/.oemof".
Proof.
  unfold default_bpath, expanduser_tilde, os_path_join. cbn [fold_left].
  pose proof (endswith_slash_rstrip home) as He.
  destruct (rstrip_slash home) as [|c h] eqn:Hh; [reflexivity|].
  by rewrite (join2_clean (String c h) ".oemof").
Qed.

Lemma default_dpath_eq (home : string) :
  default_dpath home = default_bpath home +:+ "/dumps".
Proof.
  unfold default_dpath, os_path_join. cbn [fold_left].
  rewrite default_bpath_eq. rewrite join2_clean; [done| | |done].
  - by destruct (rstrip_slash home).
  - by rewrite endswith_slash_app.
Qed.

Lemma snapshot_path_default_eq (home : string) :
  snapshot_path home None None = default_dpath home +:+ "/es_dump.oemof".
Proof.
  unfold snapshot_path, os_path_join. cbn [default fold_left].
  rewrite default_dpath_eq, default_bpath_eq. rewrite join2_clean; [done| | |done].
  - by destruct (rstrip_slash home).
  - by rewrite endswith_slash_app.
Qed.

Lemma dirname_default_bpath (home : string) :
  os_path_dirname (default_bpath home) = expanduser_tilde home.
Proof.
  rewrite default_bpath_eq. unfold expanduser_tilde.
  pose proof (endswith_slash_rstrip home) as He.
  destruct (rstrip_slash home) as [|c h] eqn:Hh; [reflexivity|].
  by apply (dirname_child (String c h) ".oemof").
Qed.

Lemma dirname_default_dpath (home : string) :
  os_path_dirname (default_dpath home) = default_bpath home.
Proof.
  rewrite default_dpath_eq. apply (dirname_child _ "dumps"); [| |done].
  - rewrite default_bpath_eq. by destruct (rstrip_slash home).
  - rewrite default_bpath_eq. by rewrite endswith_slash_app.
Qed.

Lemma dirname_snapshot_path_default (home : string) :
  os_path_dirname (snapshot_path home None None) = default_dpath home.
Proof.
  rewrite snapshot_path_default_eq.
  apply (dirname_child _ "es_dump.oemof"); [| |done].
  - rewrite default_dpath_eq, default_bpath_eq. by destruct (rstrip_slash home).
  - rewrite default_dpath_eq. by rewrite endswith_slash_app.
Qed.

Section DefaultLocation.
Context {blob : Type} `{!Pickle blob}.
Implicit Types (w : world blob) (d : pydict) (f : filesystem blob).

Lemma default_dpath_string (home : string) :
  default_dpath home = rstrip_slash home +:+ "/.oemof/dumps".
Proof. by rewrite default_dpath_eq, default_bpath_eq, string_app_assoc. Qed.

(** X3: when [dump()] without a directory and a file name returns, the
    pickle of the container's attribute dictionary is in the file
    [<home>/.oemof/dumps/es_dump.oemof] ([<home>] is [$HOME] without
    trailing slashes), the directories [<home>/.oemof] and
    [<home>/.oemof/dumps] exist, no other directory was created, no other
    file was written, and the returned message names the file. *)
Theorem dump_default_location (w w1 : world blob) (self : nat)
    (keep_weather : bool) (msg : pyval) :
  EnergySystem.dump self None None keep_weather w = (w1, Ok msg) →
  ∃ d b,
    containers w !! self = Some d
    ∧ pickle_dumps (PyDict d) = Ok b
    ∧ files (fs w1) =
        <[rstrip_slash (home_env w) +:+ "/.oemof/dumps/es_dump.oemof" := Some b]>
          (files (fs w))
    ∧ rstrip_slash (home_env w) +:+ "/.oemof" ∈ dirs (fs w1)
    ∧ rstrip_slash (home_env w) +:+ "/.oemof/dumps" ∈ dirs (fs w1)
    ∧ dirs (fs w) ⊆ dirs (fs w1)
    ∧ dirs (fs w1) ⊆
        {[rstrip_slash (home_env w) +:+ "/.oemof";
          rstrip_slash (home_env w) +:+ "/.oemof/dumps"]} ∪ dirs (fs w)
    ∧ msg = PyStr ("Attributes dumped to: " +:+
                   (rstrip_slash (home_env w) +:+ "/.oemof/dumps/es_dump.oemof")).
Proof.
  intros (d & b & Hd & Hb & Hmsg & Hf & _ & _ & _ & Hsub & Hb1 & Hb2 & Hsup)%dump_ok_inv.
  rewrite snapshot_path_default in *.
  rewrite default_dpath_string in *. rewrite default_bpath_eq in *.
  exists d, b. done.
Qed.

Lemma mkdir_fs_ok p f :
  p ∉ dirs f → p ∉ dom (files f) → os_path_dirname p ∉ dom (files f) →
  os_path_dirname p ∈ dirs f → os_path_dirname p ∉ denied f →
  mkdir_fs p f = Ok (FileSystem ({[p]} ∪ dirs f) (files f) (denied f)).
Proof.
  intros H1 H2 H3 H4 H5. unfold mkdir_fs.
  rewrite (bool_decide_eq_false_2 _ H1), (bool_decide_eq_false_2 _ H2).
  rewrite (bool_decide_eq_false_2 _ H3), (bool_decide_eq_true_2 _ H4).
  by rewrite (bool_decide_eq_false_2 _ H5).
Qed.

Lemma open_wb_fs_ok p f :
  p ∉ dirs f → os_path_dirname p ∉ dom (files f) →
  os_path_dirname p ∈ dirs f → p ∉ denied f →
  os_path_dirname p ∉ denied f →
  open_wb_fs p f = Ok (FileSystem (dirs f) (<[p := None]> (files f)) (denied f)).
Proof.
  intros H1 H0 H2 H3 H4. unfold open_wb_fs.
  rewrite (bool_decide_eq_false_2 _ H1), (bool_decide_eq_false_2 _ H0).
  rewrite (bool_decide_eq_true_2 _ H2).
  by rewrite (bool_decide_eq_false_2 _ H3), (bool_decide_eq_false_2 _ H4).
Qed.

(** X4: when the home directory exists but may not be written and
    [~/.oemof] does not exist, [dump()] raises the [PermissionError] of
    [os.mkdir] and leaves the process, file system and log included, as it
    was. *)
Theorem dump_default_permission_error (w : world blob) (self : nat)
    (keep_weather : bool) :
  expanduser_tilde (home_env w) ∈ dirs (fs w) →
  expanduser_tilde (home_env w) ∉ dom (files (fs w)) →
  expanduser_tilde (home_env w) ∈ denied (fs w) →
  default_bpath (home_env w) ∉ dirs (fs w) →
  default_bpath (home_env w) ∉ dom (files (fs w)) →
  EnergySystem.dump self None None keep_weather w
    = (w, Raise (PermissionError (default_bpath (home_env w)))).
Proof.
  intros Hhd Hhf Hhn Hbd Hbf. unfold EnergySystem.dump.
  rewrite !bind_assoc. erewrite bind_eq by reflexivity.
  rewrite bind_assoc. erewrite bind_eq by reflexivity.
  fold (default_bpath (home_env w)).
  rewrite (bool_decide_eq_false_2 _ Hbd). cbn [negb].
  rewrite bind_assoc. erewrite bind_raise; [reflexivity|].
  unfold os_mkdir, mkdir_fs.
  rewrite (bool_decide_eq_false_2 _ Hbd), (bool_decide_eq_false_2 _ Hbf).
  rewrite dirname_default_bpath.
  rewrite (bool_decide_eq_false_2 _ Hhf), (bool_decide_eq_true_2 _ Hhd).
  by rewrite (bool_decide_eq_true_2 _ Hhn).
Qed.

(** X5: in a writable home directory without [.oemof], [dump()] returns:
    it creates [~/.oemof] and [~/.oemof/dumps], writes the pickle of the
    container's attribute dictionary to [es_dump.oemof] in the latter, logs
    the path at debug level and returns the message; containers and
    registry are as before. *)
Theorem dump_default_fresh_home (w : world blob) (self : nat) (d : pydict)
    (b : blob) (keep_weather : bool) :
  containers w !! self = Some d →
  pickle_dumps (PyDict d) = Ok b →
  expanduser_tilde (home_env w) ∈ dirs (fs w) →
  expanduser_tilde (home_env w) ∉ dom (files (fs w)) →
  default_bpath (home_env w) ∉ dirs (fs w) →
  default_dpath (home_env w) ∉ dirs (fs w) →
  snapshot_path (home_env w) None None ∉ dirs (fs w) →
  default_bpath (home_env w) ∉ dom (files (fs w)) →
  default_dpath (home_env w) ∉ dom (files (fs w)) →
  expanduser_tilde (home_env w) ∉ denied (fs w) →
  default_bpath (home_env w) ∉ denied (fs w) →
  default_dpath (home_env w) ∉ denied (fs w) →
  snapshot_path (home_env w) None None ∉ denied (fs w) →
  EnergySystem.dump self None None keep_weather w =
    (World (containers w) (registry w) (created w)
       (FileSystem
          ({[default_dpath (home_env w)]} ∪ ({[default_bpath (home_env w)]} ∪ dirs (fs w)))
          (<[snapshot_path (home_env w) None None := Some b]> (files (fs w)))
          (denied (fs w)))
       (home_env w)
       (log w ++ [("DEBUG", "Attributes dumped to: " +:+
                            snapshot_path (home_env w) None None)]),
     Ok (PyStr ("Attributes dumped to: " +:+ snapshot_path (home_env w) None None))).
Proof.
  intros Hd Hb Hhd Hhf Hbd Hdd Hpd Hbf Hdf Hhn Hbn Hdn Hpn.
  unfold EnergySystem.dump.
  rewrite !bind_assoc. erewrite bind_eq by reflexivity.
  rewrite bind_assoc. erewrite bind_eq by reflexivity.
  fold (default_bpath (home_env w)). fold (default_dpath (home_env w)).
  rewrite (bool_decide_eq_false_2 _ Hbd). cbn [negb].
  rewrite bind_assoc. erewrite bind_eq.
  2:{ unfold os_mkdir. rewrite mkdir_fs_ok; rewrite ?dirname_default_bpath; done. }
  rewrite bind_assoc. erewrite bind_eq by reflexivity. wsimpl.
  assert (default_dpath (home_env w) ≠ default_bpath (home_env w)) as Hne1.
  { rewrite default_dpath_eq. by apply string_app_ne. }
  rewrite bool_decide_eq_false_2 by (clear -Hdd Hne1; set_solver).
  cbn [negb].
  rewrite bind_assoc. erewrite bind_eq.
  2:{ unfold os_mkdir. cbn [fs set_fs].
      rewrite mkdir_fs_ok; [reflexivity|..]; cbn [dirs files denied];
        rewrite ?dirname_default_dpath.
      - clear -Hdd Hne1. set_solver.
      - done.
      - done.
      - clear. set_solver.
      - done. }
  rewrite bind_ret. wsimpl.
  change (os_path_join (default_dpath (home_env w)) [default "es_dump.oemof" None])
    with (snapshot_path (home_env w) None None).
  erewrite bind_eq by by apply get_dict_eq.
  assert (snapshot_path (home_env w) None None ≠ default_dpath (home_env w)) as Hne2.
  { rewrite snapshot_path_default_eq. by apply string_app_ne. }
  assert (snapshot_path (home_env w) None None ≠ default_bpath (home_env w)) as Hne3.
  { rewrite snapshot_path_default_eq, default_dpath_eq, string_app_assoc.
    by apply string_app_ne. }
  erewrite bind_eq.
  2:{ unfold open_wb. cbn [fs set_fs].
      rewrite open_wb_fs_ok; [reflexivity|..]; cbn [dirs files denied];
        rewrite ?dirname_snapshot_path_default.
      - clear -Hpd Hne2 Hne3. set_solver.
      - done.
      - clear. set_solver.
      - done.
      - done. }
  erewrite bind_eq.
  2:{ unfold pickle_dump. rewrite (bind_lift_ok _ _ _ _ Hb). reflexivity. }
  wsimpl. erewrite bind_eq by reflexivity.
  unfold ret, set_log, set_fs. wsimpl. by rewrite insert_insert_eq.
Qed.

End DefaultLocation.

Section SnapshotFacts3.
Context {blob : Type} `{!Pickle blob}.
Implicit Types (w : world blob) (d : pydict) (f : filesystem blob).

(** X6: [dump] changes no object of the process: whether it returns or
    raises, every container, the registry and the constructed entities are
    as before (only the file system and the log can differ). *)
Theorem dump_keeps_objects (w : world blob) (self : nat)
    (dpath filename : option string) (keep_weather : bool) :
  containers (fst (EnergySystem.dump self dpath filename keep_weather w))
    = containers w
  ∧ registry (fst (EnergySystem.dump self dpath filename keep_weather w))
    = registry w
  ∧ created (fst (EnergySystem.dump self dpath filename keep_weather w))
    = created w.
Proof.
  destruct (same_objects_dump self dpath filename keep_weather w)
    as (? & ? & ? & _). done.
Qed.



End SnapshotFacts3.

(** ** Snapshots: the round trip and the default location *)

Section SnapshotClaims.
Context {blob : Type} `{!Pickle blob}.
Implicit Types (w : world blob) (d : pydict) (f : filesystem blob).

Lemma set_fs_same w : set_fs (fs w) w = w.
Proof. by destruct w. Qed.

Lemma ensure_dir_run {B} p (c : M blob B) w :
  (let! b := os_path_isdir p in
   (if negb b then os_mkdir p else ret tt) ;;; c) w
  = match ensure_dir_fs p (fs w) with
    | Ok f => c (set_fs f w)
    | Raise e => (w, Raise e)
    end.
Proof.
  unfold ensure_dir_fs, bind at 1, os_path_isdir.
  destruct (bool_decide (p ∈ dirs (fs w))); cbn [negb].
  - rewrite bind_ret. by rewrite set_fs_same.
  - unfold bind, os_mkdir. by destruct (mkdir_fs p (fs w)).
Qed.

(** [dump()] step by step. *)
Lemma dump_default_run self keep_weather w :
  EnergySystem.dump self None None keep_weather w =
    match ensure_dir_fs (default_bpath (home_env w)) (fs w) with
    | Raise e => (w, Raise e)
    | Ok f1 =>
        match ensure_dir_fs (default_dpath (home_env w)) f1 with
        | Raise e => (set_fs f1 w, Raise e)
        | Ok f2 =>
            match containers w !! self with
            | None => (set_fs f2 w, Raise ReferenceError)
            | Some d =>
                match open_wb_fs (snapshot_path (home_env w) None None) f2 with
                | Raise e => (set_fs f2 w, Raise e)
                | Ok f3 =>
                    match pickle_dumps (PyDict d) with
                    | Raise e => (set_fs f3 w, Raise e)
                    | Ok b =>
                        (World (containers w) (registry w) (created w)
                           (FileSystem (dirs f3)
                              (<[snapshot_path (home_env w) None None := Some b]>
                                 (files f3))
                              (denied f3))
                           (home_env w)
                           (log w ++
                              [("DEBUG", "Attributes dumped to: " +:+
                                           snapshot_path (home_env w) None None)]),
                         Ok (PyStr ("Attributes dumped to: " +:+
                                      snapshot_path (home_env w) None None)))
                    end
                end
            end
        end
    end.
Proof.
  unfold EnergySystem.dump.
  rewrite !bind_assoc. erewrite bind_eq by reflexivity.
  fold (default_bpath (home_env w)). fold (default_dpath (home_env w)).
  rewrite bind_assoc.
  erewrite bind_ext.
  2:{ intros b w0. rewrite bind_assoc. reflexivity. }
  rewrite ensure_dir_run.
  destruct (ensure_dir_fs (default_bpath (home_env w)) (fs w)) as [f1|e]; [|done].
  rewrite bind_assoc.
  erewrite bind_ext.
  2:{ intros b w0. rewrite bind_assoc. reflexivity. }
  rewrite ensure_dir_run. cbn [fs set_fs].
  destruct (ensure_dir_fs (default_dpath (home_env w)) f1) as [f2|e];
    [|reflexivity].
  rewrite bind_ret.
  change (os_path_join (default_dpath (home_env w)) [default "es_dump.oemof" None])
    with (snapshot_path (home_env w) None None).
  unfold bind at 1, EnergySystem.get_dict. cbn [containers set_fs].
  destruct (containers w !! self) as [d|]; [|reflexivity].
  unfold bind at 1, open_wb. cbn [fs set_fs].
  destruct (open_wb_fs (snapshot_path (home_env w) None None) f2) as [f3|e];
    [|reflexivity].
  unfold bind at 1, pickle_dump. unfold bind at 1, lift.
  destruct (pickle_dumps (PyDict d)) as [b|e]; [|reflexivity].
  reflexivity.
Qed.

Lemma restore_after_dump w w1 w2 self other dpath filename keep_weather msg d d0 :
  containers w !! self = Some d →
  EnergySystem.dump self dpath filename keep_weather w = (w1, Ok msg) →
  fs w2 = fs w1 → home_env w2 = home_env w →
  containers w2 !! other = Some d0 →
  EnergySystem.restore other dpath filename w2 =
    (World (<[other := d]> (containers w2)) (registry w2) (created w2) (fs w2)
       (home_env w2)
       (log w2 ++
          [("INFO", "Restoring attributes will overwrite existing attributes.");
           ("DEBUG", "Attributes restored from: " +:+
                       snapshot_path (home_env w2) dpath filename)]),
     Ok (PyStr ("Attributes restored from: " +:+
                  snapshot_path (home_env w2) dpath filename))).
Proof.
  intros Hd (d' & b & Hd' & Hb & _ & Hf & Hnd & Hnn & _)%dump_ok_inv
    Hfs Hhome Hother.
  rewrite Hd in Hd'. injection Hd' as <-.
  eapply restore_ok; rewrite ?Hfs, ?Hhome; [exact Hother| | done | done |].
  - rewrite Hf. apply lookup_insert_eq.
  - by apply pickle_loads_dumps.
Qed.


(** C7: [dump()] without a directory and a file name works on
    [<home>/.oemof/dumps/es_dump.oemof] ([<home>] is [$HOME] without
    trailing slashes).  It makes sure of the directory [<home>/.oemof],
    then of [<home>/.oemof/dumps], creating with [os.mkdir] the one that is
    no directory yet, opens the file for writing and pickles the
    attribute dictionary into it.  Whatever [os.mkdir] or [open] raises, a
    [PermissionError] included, is raised by [dump], and so is what
    [pickle] raises; when no step raises, [dump] returns, the two
    directories exist and the file holds the pickle.  [restore()] reads
    the same path: it loads whatever that file holds, and after a [dump()]
    that returned it returns with the dumped attributes. *)
Theorem dump_default_path (w : world blob) (self : nat) (keep_weather : bool) :
  snapshot_path (home_env w) None None
    = rstrip_slash (home_env w) +:+ "/.oemof/dumps/es_dump.oemof"
  ∧ default_bpath (home_env w) = rstrip_slash (home_env w) +:+ "/.oemof"
  ∧ default_dpath (home_env w) = rstrip_slash (home_env w) +:+ "/.oemof/dumps"
  ∧ (∀ e,
       ensure_dir_fs (default_bpath (home_env w)) (fs w) = Raise e →
       EnergySystem.dump self None None keep_weather w = (w, Raise e))
  ∧ (∀ f1 e,
       ensure_dir_fs (default_bpath (home_env w)) (fs w) = Ok f1 →
       ensure_dir_fs (default_dpath (home_env w)) f1 = Raise e →
       EnergySystem.dump self None None keep_weather w = (set_fs f1 w, Raise e))
  ∧ (∀ f1 f2 d e,
       ensure_dir_fs (default_bpath (home_env w)) (fs w) = Ok f1 →
       ensure_dir_fs (default_dpath (home_env w)) f1 = Ok f2 →
       containers w !! self = Some d →
       open_wb_fs (snapshot_path (home_env w) None None) f2 = Raise e →
       EnergySystem.dump self None None keep_weather w = (set_fs f2 w, Raise e))
  ∧ (∀ f1 f2 f3 d e,
       ensure_dir_fs (default_bpath (home_env w)) (fs w) = Ok f1 →
       ensure_dir_fs (default_dpath (home_env w)) f1 = Ok f2 →
       containers w !! self = Some d →
       open_wb_fs (snapshot_path (home_env w) None None) f2 = Ok f3 →
       pickle_dumps (PyDict d) = Raise e →
       snd (EnergySystem.dump self None None keep_weather w) = Raise e)
  ∧ (∀ f1 f2 f3 d b,
       ensure_dir_fs (default_bpath (home_env w)) (fs w) = Ok f1 →
       ensure_dir_fs (default_dpath (home_env w)) f1 = Ok f2 →
       containers w !! self = Some d →
       open_wb_fs (snapshot_path (home_env w) None None) f2 = Ok f3 →
       pickle_dumps (PyDict d) = Ok b →
       ∃ w1,
         EnergySystem.dump self None None keep_weather w =
           (w1, Ok (PyStr ("Attributes dumped to: " +:+
                             snapshot_path (home_env w) None None)))
         ∧ files (fs w1) !! snapshot_path (home_env w) None None = Some (Some b)
         ∧ default_bpath (home_env w) ∈ dirs (fs w1)
         ∧ default_dpath (home_env w) ∈ dirs (fs w1))
  ∧ (∀ w1 msg,
       EnergySystem.dump self None None keep_weather w = (w1, Ok msg) →
       ∃ d b w2 msg',
         containers w !! self = Some d
         ∧ pickle_dumps (PyDict d) = Ok b
         ∧ files (fs w1) =
             <[snapshot_path (home_env w) None None := Some b]> (files (fs w))
         ∧ default_bpath (home_env w) ∈ dirs (fs w1)
         ∧ default_dpath (home_env w) ∈ dirs (fs w1)
         ∧ EnergySystem.restore self None None w1 = (w2, Ok msg')
         ∧ containers w2 !! self = Some d)
  ∧ (∀ d0 b d',
       containers w !! self = Some d0 →
       files (fs w) !! snapshot_path (home_env w) None None = Some (Some b) →
       snapshot_path (home_env w) None None ∉ dirs (fs w) →
       snapshot_path (home_env w) None None ∉ denied (fs w) →
       pickle_loads b = Ok (PyDict d') →
       ∃ w2,
         EnergySystem.restore self None None w =
           (w2, Ok (PyStr ("Attributes restored from: " +:+
                             snapshot_path (home_env w) None None)))
         ∧ containers w2 !! self = Some d').
Proof.
  split; [apply snapshot_path_default|].
  split; [apply default_bpath_eq|].
  split; [by rewrite default_dpath_eq, default_bpath_eq, string_app_assoc|].
  split; [intros e H1; by rewrite dump_default_run, H1|].
  split; [intros f1 e H1 H2; by rewrite dump_default_run, H1, H2|].
  split; [intros f1 f2 d e H1 H2 Hd H3; by rewrite dump_default_run, H1, H2, Hd, H3|].
  split; [intros f1 f2 f3 d e H1 H2 Hd H3 H4;
          by rewrite dump_default_run, H1, H2, Hd, H3, H4|].
  split; [|split].
  - intros f1 f2 f3 d b H1 H2 Hd H3 H4. eexists. split.
    { rewrite dump_default_run, H1, H2, Hd, H3, H4. reflexivity. }
    pose proof (dump_default_run self keep_weather w) as Hrun.
    rewrite H1, H2, Hd, H3, H4 in Hrun.
    apply dump_ok_inv in Hrun
      as (_ & _ & _ & _ & _ & _ & _ & _ & _ & _ & Hbp & Hdp & _).
    split; [|done]. cbn [fs files]. apply lookup_insert_eq.
  - intros w1 msg Hrun.
    pose proof Hrun as
      (d & b & Hd & Hb & _ & Hf & _ & _ & _ & _ & Hbp & Hdp & _)%dump_ok_inv.
    pose proof (same_objects_dump self None None keep_weather w) as Hso.
    rewrite Hrun in Hso. cbn [fst] in Hso. destruct Hso as (Hc & _ & _ & Hh).
    exists d, b. do 2 eexists.
    split; [done|]. split; [done|]. split; [done|]. split; [done|].
    split; [done|]. split.
    + eapply (restore_after_dump w w1 w1 self self); [done|done|done|done|].
      by rewrite Hc.
    + cbn [containers]. apply list_lookup_insert_eq. rewrite Hc.
      by eapply lookup_lt_Some.
  - intros d0 b d' Hd Hfile Hnd Hnn Hload. eexists. split.
    + by eapply restore_ok.
    + cbn [containers]. apply list_lookup_insert_eq. by eapply lookup_lt_Some.
Qed.

End SnapshotClaims.

Lemma world1_dumped_run :
  @EnergySystem.dump pyval value_pickle 0 None None true world1 =
    (world1_dumped,
     Ok (PyStr "Attributes dumped to: /home/uwe/.oemof/dumps/es_dump.oemof")).
Proof. vm_compute. reflexivity. Qed.

Lemma world1_second_eq :
  world1_second =
    World (containers world1_dumped ++ [init_dict {["results" := PyInt 3]}])
      (Some (List.length (containers world1_dumped))) (created world1_dumped)
      (fs world1_dumped) (home_env world1_dumped) (log world1_dumped).
Proof. unfold world1_second. by rewrite init_eq. Qed.

Lemma dump_restore_roundtrip_witness :
  ∃ w3 msg',
    @EnergySystem.restore pyval value_pickle 1 None None world1_second
      = (w3, Ok msg')
    ∧ containers w3 !! 1 = Some (init_dict ∅)
    ∧ (∀ i, i ≠ 1 → containers w3 !! i = containers world1_second !! i)
    ∧ registry w3 = registry world1_second
    ∧ created w3 = created world1_second
    ∧ fs w3 = fs world1_second.
Proof.
  apply (@dump_restore_roundtrip pyval value_pickle world1 world1_dumped
           world1_second 0 1 None None true
           (PyStr "Attributes dumped to: /home/uwe/.oemof/dumps/es_dump.oemof")
           (init_dict ∅)).
  - by rewrite world1_eq.
  - exact world1_dumped_run.
  - rewrite world1_second_eq. reflexivity.
  - rewrite world1_second_eq. vm_compute. reflexivity.
  - by_compute.
Defined.

Lemma restore_error_keeps_state_witness :
  @EnergySystem.restore pyval value_pickle 0 None None world1 =
    (set_log
       (log world1 ++
          [("INFO", "Restoring attributes will overwrite existing attributes.")])
       world1,
     Raise (FileNotFoundError "/home/uwe/.oemof/dumps/es_dump.oemof")).
Proof.
  assert (∃ w', @EnergySystem.restore pyval value_pickle 0 None None world1 =
            (w', Raise (FileNotFoundError "/home/uwe/.oemof/dumps/es_dump.oemof")))
    as [w' Hrun].
  { eexists. vm_compute. reflexivity. }
  rewrite Hrun. f_equal.
  exact (@restore_error_keeps_state pyval value_pickle world1 w' 0 None None _ Hrun).
Defined.

Lemma dump_default_location_witness :
  ∃ b,
    files (fs world1_dumped) !! "/home/uwe/.oemof/dumps/es_dump.oemof"
      = Some (Some b)
    ∧ "/home/uwe/.oemof" ∈ dirs (fs world1_dumped)
    ∧ "/home/uwe/.oemof/dumps" ∈ dirs (fs world1_dumped).
Proof.
  destruct (@dump_default_location pyval value_pickle world1 world1_dumped 0
              true _ world1_dumped_run)
    as (d & b & _ & _ & Hf & Hb1 & Hb2 & _).
  exists b. split; [|split; [exact Hb1|exact Hb2]].
  rewrite Hf. apply lookup_insert_eq.
Defined.

Lemma dump_default_permission_error_witness :
  @EnergySystem.dump pyval value_pickle 0 None None true world1_readonly_home
    = (world1_readonly_home, Raise (PermissionError "/home/uwe/.oemof")).
Proof.
  apply (@dump_default_permission_error pyval value_pickle
           world1_readonly_home 0 true); by_compute.
Defined.

Lemma dump_default_fresh_home_witness :
  ∃ w',
    @EnergySystem.dump pyval value_pickle 0 None None true world1
      = (w', Ok (PyStr "Attributes dumped to: /home/uwe/.oemof/dumps/es_dump.oemof"))
    ∧ dirs (fs w') =
        {["/home/uwe/.oemof/dumps"]} ∪ ({["/home/uwe/.oemof"]} ∪ dirs (fs world1))
    ∧ files (fs w') =
        <["/home/uwe/.oemof/dumps/es_dump.oemof" := Some (PyDict (init_dict ∅))]>
          (files (fs world1)).
Proof.
  eexists. split.
  - apply (@dump_default_fresh_home pyval value_pickle world1 0 (init_dict ∅)
             (PyDict (init_dict ∅)) true);
      [by rewrite world1_eq|reflexivity|by_compute..].
  - split; reflexivity.
Defined.




Lemma dump_default_path_witness :
  snapshot_path "/home/uwe" None None = "/home/uwe/.oemof/dumps/es_dump.oemof"
  ∧ @EnergySystem.dump pyval value_pickle 0 None None true world1_readonly_home
    = (world1_readonly_home, Raise (PermissionError "/home/uwe/.oemof"))
  ∧ ∃ w1,
      @EnergySystem.dump pyval value_pickle 0 None None true world1
        = (w1, Ok (PyStr "Attributes dumped to: /home/uwe/.oemof/dumps/es_dump.oemof"))
      ∧ files (fs w1) !! "/home/uwe/.oemof/dumps/es_dump.oemof"
          = Some (Some (PyDict (init_dict ∅)))
      ∧ "/home/uwe/.oemof" ∈ dirs (fs w1)
      ∧ "/home/uwe/.oemof/dumps" ∈ dirs (fs w1).
Proof.
  destruct (@dump_default_path pyval value_pickle world1_readonly_home 0 true)
    as (Hpath & _ & _ & Herr & _).
  split; [exact Hpath|]. split; [apply Herr; vm_compute; reflexivity|].
  destruct (@dump_default_path pyval value_pickle world1 0 true)
    as (_ & _ & _ & _ & _ & _ & _ & Hok & _).
  apply (Hok
    (FileSystem ({["/home/uwe/.oemof"]} ∪ {["/"; "/home"; "/home/uwe"]}) ∅ ∅)
    (FileSystem ({["/home/uwe/.oemof/dumps"]} ∪
                 ({["/home/uwe/.oemof"]} ∪ {["/"; "/home"; "/home/uwe"]})) ∅ ∅)
    (FileSystem ({["/home/uwe/.oemof/dumps"]} ∪
                 ({["/home/uwe/.oemof"]} ∪ {["/"; "/home"; "/home/uwe"]}))
       {["/home/uwe/.oemof/dumps/es_dump.oemof" := None]} ∅)
    (init_dict ∅) (PyDict (init_dict ∅))).
  - vm_compute. reflexivity.
  - vm_compute. reflexivity.
  - by rewrite world1_eq.
  - vm_compute. reflexivity.
  - reflexivity.
Defined.

(** ** Simulation and EnergySystem: what construction stores *)

(** X9: a constructed [Simulation] has exactly nine attributes, the eight
    of the docstring and [solve_kwargs]; each is the keyword argument of
    its name when supplied and otherwise its default ([glpk], [False], the
    empty dictionary); keyword arguments of any other name are dropped. *)
Theorem Simulation_init_attributes (kwargs : pydict) (sim : pyval) :
  Simulation.__init__ kwargs = Ok sim →
  ∃ attrs,
    sim = PyObj Simulation.cls attrs
    ∧ dom attrs =
        {["solver"; "debug"; "verbose"; "objective_options"; "duals";
          "timesteps"; "relaxed"; "fast_build"; "solve_kwargs"]}
    ∧ attrs !! "solver" = Some (default (PyStr "glpk") (kwargs !! "solver"))
    ∧ attrs !! "debug" = Some (default (PyBool false) (kwargs !! "debug"))
    ∧ attrs !! "verbose" = Some (default (PyBool false) (kwargs !! "verbose"))
    ∧ attrs !! "objective_options" =
        Some (default (PyDict ∅) (kwargs !! "objective_options"))
    ∧ attrs !! "duals" = Some (default (PyBool false) (kwargs !! "duals"))
    ∧ attrs !! "timesteps" = kwargs !! "timesteps"
    ∧ attrs !! "relaxed" = Some (default (PyBool false) (kwargs !! "relaxed"))
    ∧ attrs !! "fast_build" = Some (default (PyBool false) (kwargs !! "fast_build"))
    ∧ attrs !! "solve_kwargs" = Some (default (PyDict ∅) (kwargs !! "solve_kwargs")).
Proof.
  intros Hsim. pose proof Hsim as Hsim'. rewrite Simulation_init_unfold in Hsim'.
  destruct (is_None _) eqn:Hn in Hsim'; [done|]. apply is_None_false in Hn.
  clear Hsim'. unfold Simulation.__init__ in Hsim. unfold getattr in Hsim.
  rewrite !lookup_insert_ne in Hsim by done. rewrite lookup_insert_eq in Hsim.
  cbn [rbind] in Hsim. destruct (is_None _) in Hsim; [done|].
  injection Hsim as <-. eexists. split; [reflexivity|].
  split. { rewrite !dom_insert_L, dom_empty_L. clear. set_solver. }
  unfold kwargs_get in *.
  repeat (split; [by simplify_map_eq|]).
  split.
  { rewrite !lookup_insert_ne by done. rewrite lookup_insert_eq.
    by destruct (kwargs !! "timesteps"). }
  repeat (split; [by simplify_map_eq|]). by simplify_map_eq.
Qed.

Lemma Simulation_init_attributes_witness :
  ∃ attrs,
    Simulation.__init__
      (<["workers" := PyInt 4]> (<["debug" := PyBool true]>
         {["timesteps" := PyList [PyInt 0; PyInt 1]]}))
      = Ok (PyObj Simulation.cls attrs)
    ∧ attrs !! "debug" = Some (PyBool true)
    ∧ attrs !! "solver" = Some (PyStr "glpk")
    ∧ attrs !! "workers" = None.
Proof.
  destruct (Simulation.__init__
      (<["workers" := PyInt 4]> (<["debug" := PyBool true]>
         {["timesteps" := PyList [PyInt 0; PyInt 1]]}))) as [sim|e] eqn:Hsim;
    [|vm_compute in Hsim; discriminate Hsim].
  destruct (Simulation_init_attributes _ _ Hsim)
    as (attrs & -> & Hdom & Hsolver & Hdebug & _).
  exists attrs. split; [reflexivity|]. split; [exact Hdebug|].
  split; [exact Hsolver|]. apply not_elem_of_dom. rewrite Hdom.
  refine (bool_decide_unpack _ _); vm_compute; exact I.
Defined.

Section ConstructionFacts2.
Context {blob : Type}.
Implicit Types (w : world blob) (d : pydict).

(** X10: [EnergySystem(...)] never raises; the new instance is a new
    object (earlier containers are kept as they are) with exactly the five
    attributes [regions], [entities], [simulation], [results] and
    [time_idx], each the keyword argument of its name or else its default;
    constructed entities, file system and log are untouched. *)
Theorem EnergySystem_init_stores_arguments (w : world blob) (kwargs : pydict) :
  ∃ w' d,
    EnergySystem.__init__ kwargs w = (w', Ok (List.length (containers w)))
    ∧ containers w' = containers w ++ [d]
    ∧ dom d = {["regions"; "entities"; "simulation"; "results"; "time_idx"]}
    ∧ d !! "regions" = Some (default (PyList []) (kwargs !! "regions"))
    ∧ d !! "entities" = Some (default (PyList []) (kwargs !! "entities"))
    ∧ d !! "simulation" = Some (default (PyList []) (kwargs !! "simulation"))
    ∧ d !! "results" = Some (default PyNone (kwargs !! "results"))
    ∧ d !! "time_idx" = Some (default PyNone (kwargs !! "time_idx"))
    ∧ created w' = created w ∧ fs w' = fs w ∧ log w' = log w
    ∧ home_env w' = home_env w.
Proof.
  do 2 eexists. split; [apply init_eq|]. wsimpl. split; [reflexivity|].
  unfold init_dict, kwargs_get. split.
  { rewrite !dom_insert_L, dom_empty_L. clear. set_solver. }
  repeat (split; [by simplify_map_eq|]). done.
Qed.

End ConstructionFacts2.

Section ConnectFacts2.
Context {blob : Type}.
Implicit Types (w : world blob) (d : pydict).

Lemma transport_uid_ok_inv bus_a bus_b uid :
  transport_uid bus_a bus_b = Ok uid →
  ∃ ua ub, getattr bus_a "uid" = Ok (PyTuple ua)
         ∧ getattr bus_b "uid" = Ok (PyTuple ub).
Proof.
  unfold transport_uid. destruct (getattr bus_a "uid") as [va|]; [|done].
  cbn [rbind]. destruct va; try done. cbn [tuple_add rbind].
  destruct (getattr bus_b "uid") as [vb|]; [|done].
  cbn [rbind]. destruct vb; try done. eauto.
Qed.

Lemma transport_uid_symmetric bus_a bus_b uid :
  transport_uid bus_a bus_b = Ok uid → ∃ uid', transport_uid bus_b bus_a = Ok uid'.
Proof.
  intros (ua & ub & Ha & Hb)%transport_uid_ok_inv.
  unfold transport_uid. rewrite Hb. cbn. rewrite Ha. cbn. eauto.
Qed.


Lemma connect_Simple_registered w self bus1 bus2 uid1 uid2 in_max out_max eta r d l :
  getattr bus1 "uid" = Ok (PyTuple uid1) →
  getattr bus2 "uid" = Ok (PyTuple uid2) →
  registry w = Some r → containers w !! r = Some d →
  d !! "entities" = Some (PyList l) →
  ∃ t1 t2,
    EnergySystem.connect self bus1 bus2 in_max out_max eta transport_Simple w =
      (World (<[r := <["entities" := PyList (l ++ [t1; t2])]> d]> (containers w))
             (registry w) (created w ++ [t1; t2]) (fs w) (home_env w) (log w),
       Ok PyNone).
Proof.
  intros H1 H2 Hr Hd Hl. rewrite (connect_Simple_eq _ _ _ _ _ _ _ _ _ H1 H2).
  erewrite bind_eq by by eapply Entity_new_registered.
  erewrite bind_eq.
  2:{ eapply Entity_new_registered; wsimpl; [exact Hr| |].
      - apply list_lookup_insert_eq. by eapply lookup_lt_Some.
      - apply lookup_insert_eq. }
  do 2 eexists. unfold ret, set_containers, set_created. wsimpl.
  rewrite list_insert_insert_eq, insert_insert_eq, <- !app_assoc. reflexivity.
Qed.



(** X12: [connect] does not use the container it is called on: the two
    transports are appended to the entities of the active registry, and
    when that is another container, the receiver's attributes stay as they
    are. *)
Theorem connect_registers_with_active_registry (w : world blob) (self r : nat)
    (bus1 bus2 : pyval) (uid1 uid2 : list pyval) (in_max out_max eta : pyval)
    (d : pydict) (l : list pyval) :
  getattr bus1 "uid" = Ok (PyTuple uid1) →
  getattr bus2 "uid" = Ok (PyTuple uid2) →
  registry w = Some r → containers w !! r = Some d →
  d !! "entities" = Some (PyList l) →
  r ≠ self →
  ∃ w' t1 t2,
    EnergySystem.connect self bus1 bus2 in_max out_max eta transport_Simple w
      = (w', Ok PyNone)
    ∧ containers w' !! self = containers w !! self
    ∧ (containers w' !! r) ≫= (.!! "entities") = Some (PyList (l ++ [t1; t2])).
Proof.
  intros H1 H2 Hr Hd Hl Hne.
  destruct (connect_Simple_registered w self bus1 bus2 uid1 uid2 in_max
              out_max eta r d l H1 H2 Hr Hd Hl) as (t1 & t2 & Hok).
  eexists _, t1, t2. split; [exact Hok|]. wsimpl.
  split; [by apply list_lookup_insert_ne|].
  rewrite list_lookup_insert_eq by (by eapply lookup_lt_Some).
  cbn [mbind option_bind]. apply lookup_insert_eq.
Qed.

End ConnectFacts2.

(** ** Region: explicit codes, missing names, the length of a code *)

Lemma Region_init_fields kwargs r :
  Region.__init__ kwargs = Ok r →
  Region.name r = kwargs_get kwargs "name" PyNone
  ∧ Region.geom r = kwargs_get kwargs "geom" PyNone
  ∧ Region._code r = kwargs_get kwargs "code" PyNone.
Proof.
  unfold Region.__init__. destruct (Region.add_entities _ _) as [self|e]; [|done].
  cbn [rbind]. intros [= <-]. done.
Qed.

(** X13: a [Region] constructed with an explicit code returns that code
    from [code], whatever its name (even none), and the read changes
    nothing. *)
Theorem Region_code_explicit (kwargs : pydict) (r : Region.t) (c : pyval) :
  Region.__init__ kwargs = Ok r →
  kwargs !! "code" = Some c → c ≠ PyNone →
  Region.code r = (Ok c, r).
Proof.
  intros (_ & _ & Hc)%Region_init_fields Hk Hne. unfold Region.code.
  unfold kwargs_get in Hc. rewrite Hk in Hc. simpl in Hc. rewrite Hc.
  assert (is_None c = false) as -> by by apply is_None_false.
  reflexivity.
Qed.

(** X14: a [Region] constructed without a code and without a name (no
    [name] argument, or [None]) raises [AttributeError] on every read of
    [code], and stores nothing. *)
Theorem Region_code_without_name (kwargs : pydict) (r : Region.t) :
  Region.__init__ kwargs = Ok r →
  kwargs_get kwargs "code" PyNone = PyNone →
  kwargs_get kwargs "name" PyNone = PyNone →
  Region.code r = (Raise (AttributeError "replace"), r)
  ∧ Region._code r = PyNone.
Proof.
  intros (Hn & _ & Hc)%Region_init_fields Hcode Hname. unfold Region.code.
  by rewrite Hc, Hcode, Hn, Hname.
Qed.

Lemma str_upper_length s : String.length (str_upper s) = String.length s.
Proof. induction s as [|c s IH]; [done|]. cbn. by rewrite IH. Qed.

Lemma substring_length_le n m s : (String.length (substring n m s) ≤ m)%nat.
Proof.
  revert n m. induction s as [|c s IH]; intros [|n] [|m]; cbn; try lia.
  - specialize (IH 0%nat m). lia.
  - apply (IH n 0%nat).
  - apply (IH n (S m)).
Qed.

Lemma segment_code_length seg : (String.length (segment_code seg) ≤ 3)%nat.
Proof.
  unfold segment_code, str_slice. rewrite string_length_app, str_upper_length.
  pose proof (substring_length_le 0 (1 - 0) seg).
  pose proof (substring_length_le 1 (3 - 1) seg).
  cbn [Nat.sub] in *. lia.
Qed.

(** X15: the code that a region without a code derives from a name of
    ASCII characters has at most six characters: at most three for each of
    the two pieces of the name. *)
Theorem Region_code_length (r : Region.t) (nm : string) :
  Region._code r = PyNone → Region.name r = PyStr nm →
  is_ascii nm = true →
  ∃ c, fst (Region.code r) = Ok (PyStr c) ∧ (String.length c ≤ 6)%nat.
Proof.
  intros Hc Hn Hascii. unfold Region.code. rewrite Hc, Hn. cbn [is_None].
  rewrite Hascii, str_split_once. eexists. split; [reflexivity|].
  destruct (snd (cut_at_separator nm)) as [rest|]; cbn [fold_left];
    unfold Region.code_step; fold (segment_code (fst (cut_at_separator nm))).
  - fold (segment_code (str_replace "_" " " rest)).
    rewrite !string_length_app. cbn [String.length].
    pose proof (segment_code_length (fst (cut_at_separator nm))).
    pose proof (segment_code_length (str_replace "_" " " rest)). lia.
  - rewrite string_length_app. cbn [String.length].
    pose proof (segment_code_length (fst (cut_at_separator nm))). lia.
Qed.

(** X17: [add_entities] does not prevent duplicate entries: adding the
    same list a second time appends it again. *)
Theorem Region_add_entities_keeps_duplicates (self r1 : Region.t) (l : list pyval) :
  Region.add_entities self (PyList l) = Ok r1 →
  ∃ r2,
    Region.add_entities r1 (PyList l) = Ok r2
    ∧ Region.entities r2 = Region.entities self ++ l ++ l.
Proof.
  unfold Region.add_entities. cbn [py_iter rbind].
  destruct (Region.check_regions l) as [[]|e]; [|done].
  cbn [rbind]. intros [= <-]. eexists. split; [reflexivity|].
  cbn [Region.entities]. by rewrite <- app_assoc.
Qed.

Section OptimizeFacts2.
Context {blob : Type} `{!Compiler}.
Implicit Types (w : world blob) (d : pydict).

(** X16: with a model supplied, [optimize] builds none (nothing is asked of
    [OM_new]): it solves the supplied model with the five settings of
    [self.simulation], and when [solve] and [results] return, it returns
    the container it was called on, whose [results] attribute is then what
    [results] returned. *)
Theorem optimize_with_supplied_model (w : world blob) (self : nat) (d : pydict)
    (sim solver debug verbose duals solve_kwargs : pyval) (om om' : OM)
    (results : pyval) :
  containers w !! self = Some d →
  d !! "simulation" = Some sim →
  getattr sim "solver" = Ok solver →
  getattr sim "debug" = Ok debug →
  getattr sim "verbose" = Ok verbose →
  getattr sim "duals" = Ok duals →
  getattr sim "solve_kwargs" = Ok solve_kwargs →
  OM_solve om
    (<["solve_kwargs" := solve_kwargs]>
    (<["duals" := duals]>
    (<["verbose" := verbose]>
    (<["debug" := debug]>
    (<["solver" := solver]> ∅))))) = Ok om' →
  OM_results om' = Ok results →
  ∃ w',
    EnergySystem.optimize self (Some om) w = (w', Ok self)
    ∧ (containers w' !! self) ≫= (.!! "results") = Some results.
Proof.
  intros Hd Hsim Hsolver Hdebug Hverbose Hduals Hkw Hsolve Hres.
  eexists. split.
  - unfold EnergySystem.optimize. rewrite bind_ret.
    erewrite bind_eq by by eapply simulation_attr_eq.
    erewrite bind_eq by by eapply simulation_attr_eq.
    erewrite bind_eq by by eapply simulation_attr_eq.
    erewrite bind_eq by by eapply simulation_attr_eq.
    erewrite bind_eq by by eapply simulation_attr_eq.
    rewrite (bind_lift_ok _ _ _ _ Hsolve).
    rewrite (bind_lift_ok _ _ _ _ Hres).
    erewrite bind_eq by by eapply setattr_self_eq.
    reflexivity.
  - cbn [containers set_containers].
    rewrite list_lookup_insert_eq by (by eapply lookup_lt_Some).
    cbn [mbind option_bind]. apply lookup_insert_eq.
Qed.

End OptimizeFacts2.

(** ** The further properties on examples *)

Lemma world_two_eq :
  world_two = World [init_dict ∅; init_dict ∅] (Some 1) [] (fs world0)
                (home_env world0) (log world0).
Proof. unfold world_two. rewrite init_eq, world1_eq. reflexivity. Qed.


Lemma connect_registers_with_active_registry_witness :
  ∃ w' t1 t2,
    EnergySystem.connect 0 bus_north bus_south (PyInt 10) (PyInt 8) float_0_9
      transport_Simple world_two = (w', Ok PyNone)
    ∧ containers w' !! 0 = Some (init_dict ∅)
    ∧ (containers w' !! 1) ≫= (.!! "entities") = Some (PyList [t1; t2]).
Proof.
  destruct (connect_registers_with_active_registry world_two 0 1
              bus_north bus_south [PyStr "bel"; PyStr "north"]
              [PyStr "bel"; PyStr "south"] (PyInt 10) (PyInt 8) float_0_9
              (init_dict ∅) [])
    as (w' & t1 & t2 & Hrun & Hself & Hreg).
  - vm_compute; reflexivity.
  - vm_compute; reflexivity.
  - by rewrite world_two_eq.
  - by rewrite world_two_eq.
  - exact init_dict_empty_entities.
  - discriminate.
  - exists w', t1, t2. split; [exact Hrun|]. split; [|exact Hreg].
    rewrite Hself. by rewrite world_two_eq.
Defined.

Lemma Region_code_explicit_witness :
  ∃ r,
    Region.__init__ (<["code" := PyStr "NI"]> {["name" := PyStr "Lower Saxony"]})
      = Ok r
    ∧ Region.code r = (Ok (PyStr "NI"), r).
Proof.
  assert (Region.__init__
            (<["code" := PyStr "NI"]> {["name" := PyStr "Lower Saxony"]})
          = Ok (Region.Build [] (PyStr "Lower Saxony") PyNone (PyStr "NI")))
    as Hinit by (vm_compute; reflexivity).
  eexists. split; [exact Hinit|].
  apply (Region_code_explicit _ _ (PyStr "NI") Hinit);
    [vm_compute; reflexivity|discriminate].
Defined.

Lemma Region_code_without_name_witness :
  ∃ r,
    Region.__init__ {["geom" := PyStr "POLYGON ((0 0, 1 0, 1 1, 0 0))"]} = Ok r
    ∧ Region.code r = (Raise (AttributeError "replace"), r)
    ∧ Region._code r = PyNone.
Proof.
  assert (Region.__init__ {["geom" := PyStr "POLYGON ((0 0, 1 0, 1 1, 0 0))"]}
          = Ok (Region.Build [] PyNone (PyStr "POLYGON ((0 0, 1 0, 1 1, 0 0))")
                  PyNone))
    as Hinit by (vm_compute; reflexivity).
  eexists. split; [exact Hinit|].
  apply (Region_code_without_name _ _ Hinit); vm_compute; reflexivity.
Defined.

Lemma Region_code_length_witness :
  ∃ c,
    fst (Region.code
           (Region.Build [] (PyStr "north_rhine westphalia") PyNone PyNone))
      = Ok (PyStr c)
    ∧ (String.length c ≤ 6)%nat.
Proof.
  apply (Region_code_length
           (Region.Build [] (PyStr "north_rhine westphalia") PyNone PyNone)
           "north_rhine westphalia"); reflexivity.
Defined.

Lemma optimize_with_supplied_model_witness :
  ∃ w',
    @EnergySystem.optimize pyval echo_compiler 0
      (Some {["warm_start" := PyBool true]}) world2 = (w', Ok 0)
    ∧ (containers w' !! 0) ≫= (.!! "results") = Some (PyDict glpk_solve_kwargs).
Proof.
  apply (@optimize_with_supplied_model pyval echo_compiler world2 0
           (init_dict {["simulation" := sim_glpk]}) sim_glpk
           (PyStr "glpk") (PyBool false) (PyBool false) (PyBool false)
           (PyDict ∅) {["warm_start" := PyBool true]} glpk_solve_kwargs
           (PyDict glpk_solve_kwargs)).
  - by rewrite world2_eq.
  - vm_compute. reflexivity.
  - vm_compute. reflexivity.
  - vm_compute. reflexivity.
  - vm_compute. reflexivity.
  - vm_compute. reflexivity.
  - vm_compute. reflexivity.
  - reflexivity.
  - reflexivity.
Defined.

Lemma Region_add_entities_keeps_duplicates_witness :
  ∃ r1 r2,
    Region.add_entities (Region.Build [] (PyStr "Lower Saxony") PyNone PyNone)
      (PyList [bus_unassigned]) = Ok r1
    ∧ Region.add_entities r1 (PyList [bus_unassigned]) = Ok r2
    ∧ Region.entities r2 = [bus_unassigned; bus_unassigned].
Proof.
  assert (Region.add_entities
            (Region.Build [] (PyStr "Lower Saxony") PyNone PyNone)
            (PyList [bus_unassigned])
          = Ok (Region.Build [bus_unassigned] (PyStr "Lower Saxony") PyNone PyNone))
    as H1 by (vm_compute; reflexivity).
  destruct (Region_add_entities_keeps_duplicates _ _ _ H1) as (r2 & H2 & Hent).
  eexists _, r2. split; [exact H1|]. split; [exact H2|exact Hent].
Defined.
